(** * Blogicum: the blog views of [blog/views.py]

    A shallow embedding of the Django views of the blog application and of
    the parts of Django they run on (the ORM calls they make, the
    [Paginator], [login_required], [get_object_or_404]), followed by the
    properties of the views.

    Tables are finite maps from primary key to row, a queryset is the list
    of its rows, a view is a function from the request and the database to
    an outcome (a response or an uncaught exception) and, for the views
    that write, the database afterwards. *)

From Stdlib Require Import ZArith Lia.
From stdpp Require Import base gmap strings list fin_maps sorting.

Local Open Scope Z_scope.

(** ** Rows of [blog/models.py] *)

(** Modelled from the spec: [models.py] is not among the sources; the
    fields are those of the data model (section 3): a user has a unique
    username. *)
Record User := mkUser {
  username : string
}.

(** Modelled from the spec: [models.py] is not among the sources; a
    category has a slug and an [is_published] flag. *)
Record Category := mkCategory {
  slug : string;
  cat_is_published : bool
}.

(** Modelled from the spec: [models.py] is not among the sources; the
    fields a [PostForm] fills in are all the fields of a post except its
    author. Category and location are optional foreign keys, [pub_date] is
    a point in time (seconds). *)
Record PostFields := mkPostFields {
  title : string;
  text : string;
  pub_date : Z;
  is_published : bool;
  category_id : option nat;
  location_id : option nat
}.

(** Modelled from the spec: [models.py] is not among the sources; a post
    is the fields of its form and the foreign key to its author. *)
Record Post := mkPost {
  fields : PostFields;
  author_id : nat
}.

(** Modelled from the spec: [models.py] is not among the sources; a comment
    has a body, its creation time and foreign keys to its post and author. *)
Record Comment := mkComment {
  comment_text : string;
  created_at : Z;
  comment_post : nat;
  comment_author : nat
}.

#[global] Instance User_eq_dec : EqDecision User.
Proof. solve_decision. Defined.
#[global] Instance Category_eq_dec : EqDecision Category.
Proof. solve_decision. Defined.
#[global] Instance PostFields_eq_dec : EqDecision PostFields.
Proof. solve_decision. Defined.
#[global] Instance Post_eq_dec : EqDecision Post.
Proof. solve_decision. Defined.
#[global] Instance Comment_eq_dec : EqDecision Comment.
Proof. solve_decision. Defined.

(** The database: one table per model, keyed by primary key. *)
Record DB := mkDB {
  users : gmap nat User;
  categories : gmap nat Category;
  posts : gmap nat Post;
  comments : gmap nat Comment
}.

(** A model instance is a row together with its primary key. *)
Abbreviation Obj A := (nat * A)%type (only parsing).
Definition pk {A} (o : Obj A) : nat := fst o.
Definition row {A} (o : Obj A) : A := snd o.

(** [Model.objects.all()]: the rows of a table. *)
Definition objects {A} (t : gmap nat A) : list (Obj A) := map_to_list t.

(** ** Outcomes *)

(** The exceptions a view can leave uncaught. Django answers [Http404]
    with the 404 page ([handler404]) and every other one with the 500
    page ([handler500]). [PageNotAnInteger] and [EmptyPage] are the
    paginator's own and are caught inside [get_page]. *)
Inductive Exc :=
| Http404
| AttributeError
| MultipleObjectsReturned
| ZeroDivisionError
| PageNotAnInteger
| EmptyPage.

Inductive Res (A : Type) :=
| Ok (a : A)
| Raise (e : Exc).
Arguments Ok {A} a.
Arguments Raise {A} e.

#[global] Instance Res_ret : MRet Res := λ A a, Ok a.
#[global] Instance Res_bind : MBind Res := λ A B f m,
  match m with
  | Ok a => f a
  | Raise e => Raise e
  end.

#[global] Instance Res_fmap : FMap Res := λ A B f m,
  match m with
  | Ok a => Ok (f a)
  | Raise e => Raise e
  end.

#[global] Instance Exc_eq_dec : EqDecision Exc.
Proof. solve_decision. Defined.

(** ** Requests *)

(** [request.GET] and [request.POST]: the submitted name/value pairs. *)
Definition QueryDict : Type := list (string * string).

Record Request := mkRequest {
  (* the user id stored in the session, if any *)
  session_user : option nat;
  (* [request.method] *)
  method : string;
  (* [request.GET.get('page')] after the paginator's [int(number)]:
     [None] when the parameter is absent or is not an integer literal *)
  GET_page : option Z;
  POST : QueryDict;
  FILES : QueryDict
}.

(** [request.user]: the authentication middleware loads the session's
    user from the database; [None] stands for [AnonymousUser]. *)
Definition request_user (db : DB) (request : Request) : option (Obj User) :=
  uid ← session_user request; u ← users db !! uid; Some (uid, u).

(** [x or None] on a [QueryDict]: an empty one is falsy. *)
Definition or_None (q : QueryDict) : option QueryDict :=
  match q with
  | [] => None
  | _ => Some q
  end.

(** ** The ORM calls of the views *)

(** [qs.get(...)] inside [get_object_or_404]: the rows left by the lookup
    arguments; none raises [Http404], more than one
    [MultipleObjectsReturned]. *)
Definition get_object_or_404 {A} (qs : list (Obj A)) : Res (Obj A) :=
  match qs with
  | [] => Raise Http404
  | [o] => Ok o
  | _ => Raise MultipleObjectsReturned
  end.

(** [.filter(id=k)] *)
Definition filter_id {A} (k : nat) (qs : list (Obj A)) : list (Obj A) :=
  filter (λ o, pk o = k) qs.

(** [post.category] with the category joined in ([select_related], or the
    join of a [category__...] lookup): [None] when the post has none. *)
Definition post_category (db : DB) (p : Post) : option Category :=
  cid ← category_id (fields p); categories db !! cid.

(** The lookup [category__is_published=True]: the join drops the posts
    without a category. *)
Definition category__is_published (db : DB) (p : Post) : bool :=
  match post_category db p with
  | Some c => cat_is_published c
  | None => false
  end.

(** [.filter(pub_date__lte=now, is_published=True,
             category__is_published=True)] *)
Definition published_lookup (db : DB) (now : Z) (o : Obj Post) : bool :=
  bool_decide (pub_date (fields (row o)) ≤ now)
  && is_published (fields (row o))
  && category__is_published db (row o).

Definition filter_published (db : DB) (now : Z) (qs : list (Obj Post))
  : list (Obj Post) :=
  filter (λ o, published_lookup db now o) qs.

(** [post.comments]: the comments whose foreign key is the post. *)
Definition post_comments (db : DB) (post_pk : nat) : list (Obj Comment) :=
  filter (λ c, comment_post (row c) = post_pk) (objects (comments db)).

(** [category.posts.all()] and [user.posts.all()] *)
Definition category_posts_all (db : DB) (category_pk : nat) : list (Obj Post) :=
  filter (λ o, category_id (fields (row o)) = Some category_pk)
         (objects (posts db)).

Definition user_posts_all (db : DB) (user_pk : nat) : list (Obj Post) :=
  filter (λ o, author_id (row o) = user_pk) (objects (posts db)).

(** A post with its [comment_count] annotation. *)
Definition Annotated : Type := Obj Post * nat.

(** [.annotate(comment_count=Count('comments'))] *)
Definition annotate_comment_count (db : DB) (qs : list (Obj Post))
  : list Annotated :=
  map (λ o, (o, length (post_comments db (pk o)))) qs.

(** [.order_by('-pub_date')]: [a] may come before [b]. *)
Definition pub_date_desc (a b : Annotated) : Prop :=
  pub_date (fields (row (fst b))) ≤ pub_date (fields (row (fst a))).

#[global] Instance pub_date_desc_dec a b : Decision (pub_date_desc a b).
Proof. unfold pub_date_desc. apply _. Defined.

(** [.order_by('created_at')] *)
Definition created_at_asc (a b : Obj Comment) : Prop :=
  created_at (row a) ≤ created_at (row b).

#[global] Instance created_at_asc_dec a b : Decision (created_at_asc a b).
Proof. unfold created_at_asc. apply _. Defined.

(** ** [get_annotated_posts] *)

Definition get_annotated_posts (db : DB) (now : Z)
    (post_objects : list (Obj Post)) (show_all : bool) : list Annotated :=
  let posts :=
    if negb show_all then filter_published db now post_objects
    else post_objects in
  merge_sort pub_date_desc (annotate_comment_count db posts).

(** ** [django.core.paginator.Paginator]

    The paginator is Django's; these definitions follow its methods, with
    the defaults the views leave in place ([orphans=0],
    [allow_empty_first_page=True]). *)

Record Paginator (A : Type) := mkPaginator {
  pg_object_list : list A;
  per_page : nat
}.
Arguments mkPaginator {A} _ _.
Arguments pg_object_list {A} _.
Arguments per_page {A} _.

Record Page (A : Type) := mkPage {
  object_list : list A;
  number : Z;
  paginator : Paginator A
}.
Arguments mkPage {A} _ _ _.
Arguments object_list {A} _.
Arguments number {A} _.
Arguments paginator {A} _.

Definition count {A} (p : Paginator A) : Z :=
  Z.of_nat (length (pg_object_list p)).

(** [ceil(hits / per_page)] for a positive [per_page]. *)
Definition ceil_div (hits per : Z) : Z := (hits + per - 1) `div` per.

(** [num_pages]: [hits = max(1, count - orphans)], then
    [ceil(hits / per_page)]; the division raises for [per_page = 0]. *)
Definition num_pages {A} (p : Paginator A) : Res Z :=
  let hits := Z.max 1 (count p - 0) in
  if decide (per_page p = 0%nat) then Raise ZeroDivisionError
  else Ok (ceil_div hits (Z.of_nat (per_page p))).

(** [validate_number]: [number] is the outcome of [int(number)]. *)
Definition validate_number {A} (p : Paginator A) (number : option Z) : Res Z :=
  match number with
  | None => Raise PageNotAnInteger
  | Some n =>
      if decide (n < 1) then Raise EmptyPage
      else
        np ← num_pages p;
        if decide (n > np) then Raise EmptyPage else Ok n
  end.

(** [object_list[bottom:top]] for [0 <= bottom <= top]. *)
Definition slice {A} (l : list A) (bottom top : Z) : list A :=
  take (Z.to_nat (top - bottom)) (drop (Z.to_nat bottom) l).

(** [page(number)] *)
Definition page {A} (p : Paginator A) (number : Z) : Res (Page A) :=
  number ← validate_number p (Some number);
  let bottom := (number - 1) * Z.of_nat (per_page p) in
  let top := bottom + Z.of_nat (per_page p) in
  let top := if decide (top + 0 >= count p) then count p else top in
  Ok (mkPage (slice (pg_object_list p) bottom top) number p).

(** [get_page(number)]: a value that is not an integer gives the first
    page, an integer outside the range the last one. *)
Definition get_page {A} (p : Paginator A) (number : option Z) : Res (Page A) :=
  match validate_number p number with
  | Ok n => page p n
  | Raise PageNotAnInteger => page p 1
  | Raise EmptyPage => np ← num_pages p; page p np
  | Raise e => Raise e
  end.

(** ** [get_paginator] *)

Definition get_paginator {A} (request : Request) (items : list A) (num : nat)
  : Res (Page A) :=
  let paginator := mkPaginator items num in
  let num_pages := GET_page request in
  get_page paginator num_pages.

(** ** Forms and responses *)

(** A form as the views build it: the data and files it was bound to (an
    unbound form has neither) and the instance it edits. *)
Record Form (I : Type) := mkForm {
  form_data : option QueryDict;
  form_files : option QueryDict;
  form_instance : option I
}.
Arguments mkForm {I} _ _ _.
Arguments form_data {I} _.
Arguments form_files {I} _.
Arguments form_instance {I} _.

Definition is_bound {I} (form : Form I) : bool :=
  match form_data form, form_files form with
  | None, None => false
  | _, _ => true
  end.

(** The named URLs the views redirect to. *)
Inductive Route :=
| login
| blog_index
| blog_post_detail (post_id : nat)
| blog_profile (user : string).

(** The context each template is rendered with. *)
Inductive Context :=
| IndexCtx (page_obj : Page Annotated)
| DetailCtx (post : Obj Post) (form : Form (Obj Comment))
            (comments : list (Obj Comment))
| CategoryCtx (category : Obj Category) (page_obj : Page Annotated)
| ProfileCtx (profile : Obj User) (page_obj : Page Annotated)
| PostFormCtx (form : Form (Obj Post))
| CommentFormCtx (form : Form (Obj Comment)) (comment : Obj Comment)
| CommentCtx (comment : Obj Comment).

Inductive Response :=
| Render (template : string) (context : Context)
| Redirect (to : Route).

(** ** Writes *)

Definition set_posts (db : DB) (t : gmap nat Post) : DB :=
  mkDB (users db) (categories db) t (comments db).

Definition set_comments (db : DB) (t : gmap nat Comment) : DB :=
  mkDB (users db) (categories db) (posts db) t.

(** [instance.save()] of a new instance: the database gives it an unused
    primary key. *)
Definition insert_post (db : DB) (p : Post) : DB :=
  set_posts db (<[fresh (dom (posts db)) := p]> (posts db)).

Definition insert_comment (db : DB) (c : Comment) : DB :=
  set_comments db (<[fresh (dom (comments db)) := c]> (comments db)).

(** [instance.save()] of an instance read from the database. *)
Definition update_post (db : DB) (o : Obj Post) : DB :=
  set_posts db (<[pk o := row o]> (posts db)).

Definition update_comment (db : DB) (o : Obj Comment) : DB :=
  set_comments db (<[pk o := row o]> (comments db)).

(** [post.delete()]: the comments of the post go with it. *)
Definition delete_post_cascade (db : DB) (post_pk : nat) : DB :=
  mkDB (users db) (categories db) (delete post_pk (posts db))
       (filter (λ kc, comment_post (snd kc) ≠ post_pk) (comments db)).

(** [comment.delete()] *)
Definition delete_comment_row (db : DB) (comment_pk : nat) : DB :=
  set_comments db (delete comment_pk (comments db)).

(** ** The views *)

Section Views.

(** [forms.py] is not among the sources: the validation of the two model
    forms is a parameter. Given the database, the instance the form
    edits and the data (and files) it is bound to, it returns the
    cleaned fields, or [None] when a field is in error. *)
Variable PostForm_clean :
  DB → option (Obj Post) → QueryDict → QueryDict → option PostFields.
Variable CommentForm_clean :
  DB → option (Obj Comment) → QueryDict → option string.

(** The cleaned fields of a form, when [form.is_valid()]: an unbound
    form is never valid. *)
Definition PostForm_cleaned (db : DB) (form : Form (Obj Post))
  : option PostFields :=
  if is_bound form then
    PostForm_clean db (form_instance form)
      (default [] (form_data form)) (default [] (form_files form))
  else None.

Definition CommentForm_cleaned (db : DB) (form : Form (Obj Comment))
  : option string :=
  if is_bound form then
    CommentForm_clean db (form_instance form) (default [] (form_data form))
  else None.

(** [@login_required]: an anonymous request is sent to the login page
    before the view runs. *)
Definition login_required (request : Request) (db : DB)
    (view : Obj User → Res Response * DB) : Res Response * DB :=
  match request_user db request with
  | Some user => view user
  | None => (Ok (Redirect login), db)
  end.

Definition index (request : Request) (now : Z) (db : DB) : Res Response :=
  let post_list := get_annotated_posts db now (objects (posts db)) false in
  page_obj ← get_paginator request post_list 10;
  Ok (Render "blog/index.html" (IndexCtx page_obj)).

(** The test [post.is_published and post.pub_date <= timezone.now() and
    post.category.is_published] of [post_detail]: the operands are
    evaluated left to right, as far as needed; the attribute access on a
    missing category raises. *)
Definition publication_conditions (db : DB) (now : Z) (post : Obj Post)
  : Res bool :=
  if is_published (fields (row post)) then
    if bool_decide (pub_date (fields (row post)) ≤ now) then
      match post_category db (row post) with
      | Some c => Ok (cat_is_published c)
      | None => Raise AttributeError
      end
    else Ok false
  else Ok false.

(** [post_detail]; [now] and [now'] are the first and the second reading
    of [timezone.now()] on the path that reads it twice. *)
Definition post_detail (request : Request) (post_id : nat) (now now' : Z)
    (db : DB) : Res Response :=
  let post_queryset := objects (posts db) in
  post ←
    match request_user db request with
    | Some user =>
        post ← get_object_or_404 (filter_id post_id post_queryset);
        if decide (author_id (row post) ≠ pk user) then
          visible ← publication_conditions db now post;
          if negb visible then
            get_object_or_404
              (filter (λ o, pk o = post_id ∧ published_lookup db now' o)
                      post_queryset)
          else Ok post
        else Ok post
    | None =>
        get_object_or_404
          (filter_id post_id (filter_published db now post_queryset))
    end;
  let comments := merge_sort created_at_asc (post_comments db (pk post)) in
  let form := mkForm None None None in
  Ok (Render "blog/detail.html" (DetailCtx post form comments)).

Definition category_posts (request : Request) (category_slug : string)
    (now : Z) (db : DB) : Res Response :=
  category ← get_object_or_404
    (filter (λ c, slug (row c) = category_slug
                  ∧ cat_is_published (row c) = true)
            (objects (categories db)));
  let post_list :=
    get_annotated_posts db now (category_posts_all db (pk category)) false in
  page_obj ← get_paginator request post_list 10;
  Ok (Render "blog/category.html" (CategoryCtx category page_obj)).

Definition profile (request : Request) (username' : string) (now : Z)
    (db : DB) : Res Response :=
  user ← get_object_or_404
    (filter (λ u, username (row u) = username') (objects (users db)));
  let show_all :=
    match request_user db request with
    | Some request_user => bool_decide (pk request_user = pk user)
    | None => false
    end in
  let posts_list :=
    get_annotated_posts db now (user_posts_all db (pk user)) show_all in
  page_obj ← get_paginator request posts_list 10;
  Ok (Render "blog/profile.html" (ProfileCtx user page_obj)).

Definition create_post (request : Request) (db : DB) : Res Response * DB :=
  login_required request db (λ user,
    if decide (method request = "POST") then
      let form :=
        mkForm (or_None (POST request)) (or_None (FILES request)) None in
      match PostForm_cleaned db form with
      | Some cleaned =>
          let post := mkPost cleaned (pk user) in
          (Ok (Redirect (blog_profile (username (row user)))),
           insert_post db post)
      | None => (Ok (Render "blog/create.html" (PostFormCtx form)), db)
      end
    else
      let form := mkForm None None None in
      (Ok (Render "blog/create.html" (PostFormCtx form)), db)).

Definition delete_post (request : Request) (post_id : nat) (db : DB)
  : Res Response * DB :=
  login_required request db (λ user,
    match get_object_or_404 (filter_id post_id (objects (posts db))) with
    | Raise e => (Raise e, db)
    | Ok post =>
        if decide (pk user ≠ author_id (row post)) then
          (Ok (Redirect (blog_post_detail post_id)), db)
        else if decide (method request = "POST") then
          (Ok (Redirect blog_index), delete_post_cascade db (pk post))
        else
          let form := mkForm None None (Some post) in
          (Ok (Render "blog/create.html" (PostFormCtx form)), db)
    end).

Definition edit_post (request : Request) (post_id : nat) (db : DB)
  : Res Response * DB :=
  login_required request db (λ user,
    match get_object_or_404 (filter_id post_id (objects (posts db))) with
    | Raise e => (Raise e, db)
    | Ok post =>
        if decide (pk user ≠ author_id (row post)) then
          (Ok (Redirect (blog_post_detail post_id)), db)
        else if decide (method request = "POST") then
          let form :=
            mkForm (Some (POST request)) (or_None (FILES request))
                   (Some post) in
          match PostForm_cleaned db form with
          | Some cleaned =>
              let post := (pk post, mkPost cleaned (author_id (row post))) in
              (Ok (Redirect (blog_post_detail post_id)), update_post db post)
          | None => (Ok (Render "blog/create.html" (PostFormCtx form)), db)
          end
        else
          let form := mkForm None None (Some post) in
          (Ok (Render "blog/create.html" (PostFormCtx form)), db)
    end).

(** [add_comment]; [now] is the time the new row gets as [created_at]. *)
Definition add_comment (request : Request) (post_id : nat) (now : Z)
    (db : DB) : Res Response * DB :=
  login_required request db (λ user,
    match get_object_or_404 (filter_id post_id (objects (posts db))) with
    | Raise e => (Raise e, db)
    | Ok post =>
        let form := mkForm (or_None (POST request)) None None in
        let db :=
          match CommentForm_cleaned db form with
          | Some cleaned =>
              insert_comment db (mkComment cleaned now (pk post) (pk user))
          | None => db
          end in
        (Ok (Redirect (blog_post_detail post_id)), db)
    end).

Definition edit_comment (request : Request) (post_id comment_id : nat)
    (db : DB) : Res Response * DB :=
  login_required request db (λ user,
    match get_object_or_404 (filter_id comment_id (objects (comments db))) with
    | Raise e => (Raise e, db)
    | Ok comment =>
        if decide (pk user ≠ comment_author (row comment)) then
          (Ok (Redirect (blog_post_detail post_id)), db)
        else if decide (method request = "POST") then
          let form := mkForm (or_None (POST request)) None (Some comment) in
          match CommentForm_cleaned db form with
          | Some cleaned =>
              let c := row comment in
              let saved :=
                (pk comment,
                 mkComment cleaned (created_at c) (comment_post c)
                           (comment_author c)) in
              (Ok (Redirect (blog_post_detail post_id)),
               update_comment db saved)
          | None =>
              (Ok (Render "blog/comment.html" (CommentFormCtx form comment)),
               db)
          end
        else
          let form := mkForm None None (Some comment) in
          (Ok (Render "blog/comment.html" (CommentFormCtx form comment)), db)
    end).

Definition delete_comment (request : Request) (post_id comment_id : nat)
    (db : DB) : Res Response * DB :=
  login_required request db (λ user,
    match get_object_or_404 (filter_id comment_id (objects (comments db))) with
    | Raise e => (Raise e, db)
    | Ok comment =>
        if decide (pk user ≠ comment_author (row comment)) then
          (Ok (Redirect (blog_post_detail post_id)), db)
        else if decide (method request = "POST") then
          (Ok (Redirect (blog_post_detail post_id)),
           delete_comment_row db (pk comment))
        else
          (Ok (Render "blog/comment.html" (CommentCtx comment)), db)
    end).

End Views.

(** ** [edit_profile] *)

(** What [edit_profile] answers: a redirect, or its template with the form. *)
Inductive ProfileResponse :=
| RenderProfileForm (template : string) (form : Form (Obj User))
| RedirectFromProfile (to : Route).

Definition set_users (db : DB) (t : gmap nat User) : DB :=
  mkDB t (categories db) (posts db) (comments db).

Section ProfileViews.

(** [forms.py] is not among the sources: the validation of
    [ProfileEditForm] is a parameter. Given the database, the user the
    form edits and the data it is bound to, it returns the row of the user
    with the cleaned fields written in, or [None] when a field is in
    error. *)
Variable ProfileEditForm_clean : DB → Obj User → QueryDict → option User.

(** [edit_profile], under [@login_required]. The form edits
    [request.user] itself, so after [form.save()] the redirect is to the
    profile under the name the user has then. *)
Definition edit_profile (request : Request) (db : DB)
  : Res ProfileResponse * DB :=
  match request_user db request with
  | None => (Ok (RedirectFromProfile login), db)
  | Some user =>
      if decide (method request = "POST") then
        let form := mkForm (Some (POST request)) None (Some user) in
        match ProfileEditForm_clean db user (POST request) with
        | Some cleaned =>
            let user := (pk user, cleaned) in
            (Ok (RedirectFromProfile (blog_profile (username (row user)))),
             set_users db (<[pk user := row user]> (users db)))
        | None => (Ok (RenderProfileForm "blog/user.html" form), db)
        end
      else
        let form := mkForm None None (Some user) in
        (Ok (RenderProfileForm "blog/user.html" form), db)
  end.

End ProfileViews.

(** * Specification *)

(** ** Notions of the specification *)

(** The invariant of the data model: a post is publicly visible when it is
    published, its publication date is not in the future and its category
    is published. *)
Definition public_visibility (db : DB) (now : Z) (p : Post) : Prop :=
  is_published (fields p) = true
  ∧ pub_date (fields p) ≤ now
  ∧ ∃ c, post_category db p = Some c ∧ cat_is_published c = true.

(** The page [post_detail] renders for a post. *)
Definition detail_page (db : DB) (post : Obj Post) : Response :=
  Render "blog/detail.html"
    (DetailCtx post (mkForm None None None)
               (merge_sort created_at_asc (post_comments db (pk post)))).

(** The number of comments on a post: the size of the part of the comments
    table whose foreign key is the post. *)
Definition comments_on (db : DB) (post_pk : nat) : nat :=
  size (filter (λ kc : nat * Comment, comment_post kc.2 = post_pk) (comments db)).

(** The posts of a listing. *)
Definition listed (l : list Annotated) : list (Obj Post) := l.*1.

(** The page a reader of the specification expects for page number [n] of
    [last] pages: the nearest valid one. *)
Definition nearest_valid_page (n last : Z) : Z := Z.max 1 (Z.min n last).

(** Page [n], counted from one, of a list cut in pages of ten. *)
Definition page_slice {A} (items : list A) (n : Z) : list A :=
  take 10 (drop (10 * Z.to_nat (n - 1)) items).

(** The number of pages of ten a list has: at least one. *)
Definition last_page {A} (items : list A) : Z :=
  ceil_div (Z.max 1 (Z.of_nat (length items))) 10.

(** The page number [get_page] settles on. *)
Definition settled_page {A} (items : list A) (number : option Z) : Z :=
  match number with
  | None => 1
  | Some k => if decide (1 ≤ k ≤ last_page items) then k else last_page items
  end.

(** [commented CommentForm_clean post_id db n db']: from [db] to [db'] in
    [n] calls of [add_comment] on the post, each by a signed-in user with
    a valid form, so each creating one comment. *)
Inductive commented
    (CommentForm_clean : DB → option (Obj Comment) → QueryDict → option string)
    (post_id : nat) : DB → nat → DB → Prop :=
| commented_nil db : commented CommentForm_clean post_id db 0 db
| commented_cons db n db' request now user cleaned :
    request_user db request = Some user →
    CommentForm_cleaned CommentForm_clean db
      (mkForm (or_None (POST request)) None None) = Some cleaned →
    commented CommentForm_clean post_id
      (add_comment CommentForm_clean request post_id now db).2 n db' →
    commented CommentForm_clean post_id db (S n) db'.

(** ** A small blog *)

(** Two users; a published and an unpublished category; three posts of
    alice in the published category (a visible one, an unpublished one
    and one dated in the future) and one of bob in the unpublished
    category; one comment of bob on the first post. *)
Definition sample_db : DB :=
  mkDB
    (list_to_map [(1%nat, mkUser "alice"); (2%nat, mkUser "bob")])
    (list_to_map [(1%nat, mkCategory "news" true);
                  (2%nat, mkCategory "drafts" false)])
    (list_to_map
       [(5%nat, mkPost (mkPostFields "first" "a" 0 true (Some 1%nat) None) 1%nat);
        (6%nat, mkPost (mkPostFields "hidden" "b" 0 false (Some 1%nat) None) 1%nat);
        (7%nat, mkPost (mkPostFields "later" "c" 100 true (Some 1%nat) None) 1%nat);
        (8%nat, mkPost (mkPostFields "other" "d" 0 true (Some 2%nat) None) 2%nat)])
    (list_to_map [(1%nat, mkComment "hi" 1 5%nat 2%nat)]).

(** A comment form with the one required field [text]. *)
Definition sample_CommentForm_clean
    (db : DB) (instance : option (Obj Comment)) (data : QueryDict)
  : option string :=
  match data with
  | [("text", t)] => if decide (t = "") then None else Some t
  | _ => None
  end.

(** A post form that asks for a title and fills in the rest: an
    unpublished post, dated in the future, in the first category. *)
Definition sample_PostForm_clean
    (db : DB) (instance : option (Obj Post)) (data files : QueryDict)
  : option PostFields :=
  match data with
  | [("title", t)] => Some (mkPostFields t "" 100 false (Some 1%nat) None)
  | _ => None
  end.

Definition alice_gets : Request := mkRequest (Some 1%nat) "GET" None [] [].
Definition bob_gets : Request := mkRequest (Some 2%nat) "GET" None [] [].
Definition bob_posts (data : QueryDict) : Request :=
  mkRequest (Some 2%nat) "POST" None data [].
Definition alice_posts (data : QueryDict) : Request :=
  mkRequest (Some 1%nat) "POST" None data [].

(** A database with two users and one post of the first: published, dated
    in the past, and without a category. *)
Definition uncategorised_db : DB :=
  mkDB (<[1%nat := mkUser "alice"]> (<[2%nat := mkUser "bob"]> ∅))
       ∅
       (<[5%nat := mkPost (mkPostFields "title" "text" 0 true None None)
                          1%nat]> ∅)
       ∅.

(** The blog after bob and then alice have commented the hidden post. *)
Definition commented_db : DB :=
  (add_comment sample_CommentForm_clean (alice_posts [("text", "two")]) 6 21
     (add_comment sample_CommentForm_clean (bob_posts [("text", "one")]) 6 20
        sample_db).2).2.

(** ** Pages *)

(** A request for page [k] of a listing. *)
Definition page_request (k : Z) : Request :=
  mkRequest None "GET" (Some k) [] [].

(** The items [get_paginator] shows for page number [k]. *)
Definition page_items {A} (items : list A) (k : Z) : list A :=
  match get_paginator (page_request k) items 10 with
  | Ok page_obj => object_list page_obj
  | Raise _ => []
  end.

(** A profile form with the one field [username], which must not be
    empty. *)
Definition sample_ProfileEditForm_clean
    (db : DB) (user : Obj User) (data : QueryDict) : option User :=
  match data with
  | [("username", name)] => if decide (name = "") then None else Some (mkUser name)
  | _ => None
  end.

(** * Properties *)

(** ** Lookups by primary key *)

Section PrimaryKey.
Context {A : Type}.
Implicit Types (l : list (Obj A)) (t : gmap nat A).

Lemma filter_id_absent l k : k ∉ l.*1 → filter_id k l = [].
Proof.
  induction l as [|[k' r] l IH]; intros Hk; [done|].
  unfold filter_id in *. rewrite filter_cons. cbn in *.
  rewrite not_elem_of_cons in Hk. destruct Hk as [Hne Hk].
  rewrite decide_False by (unfold pk; cbn; congruence). auto.
Qed.

Lemma filter_id_present l k r :
  NoDup (l.*1) → (k, r) ∈ l → filter_id k l = [(k, r)].
Proof.
  induction l as [|[k' r'] l IH]; intros Hnd Hin; [by apply elem_of_nil in Hin|].
  cbn in Hnd. apply NoDup_cons in Hnd as [Hk' Hnd].
  unfold filter_id in *. rewrite filter_cons. unfold pk at 1. cbn.
  apply elem_of_cons in Hin as [Heq|Hin].
  - inversion Heq; subst k' r'. rewrite decide_True by done.
    f_equal. by apply filter_id_absent.
  - destruct (decide (k' = k)) as [->|Hne]; [|by apply IH].
    exfalso. apply Hk'.
    change k with ((k, r).1). by apply list_elem_of_fmap_2.
Qed.

Lemma filter_id_objects t k :
  filter_id k (objects t) =
    match t !! k with
    | Some r => [(k, r)]
    | None => []
    end.
Proof.
  unfold objects. destruct (t !! k) as [r|] eqn:Hk.
  - apply filter_id_present; [apply NoDup_fst_map_to_list|].
    by apply elem_of_map_to_list.
  - apply filter_id_absent. intros Hin.
    apply list_elem_of_fmap in Hin as ([k' r] & -> & Hin).
    apply elem_of_map_to_list in Hin. cbn in Hk. congruence.
Qed.

(** [get_object_or_404(Model, id=k)] is the lookup of [k] in the table. *)
Lemma get_by_id t k :
  get_object_or_404 (filter_id k (objects t)) =
    match t !! k with
    | Some r => Ok (k, r)
    | None => Raise Http404
    end.
Proof. rewrite filter_id_objects. by destruct (t !! k). Qed.

End PrimaryKey.

Section FilterId.
Context {A : Type} (P : Obj A → Prop) `{∀ o, Decision (P o)}.

Lemma filter_id_filter (l : list (Obj A)) k :
  filter_id k (filter P l) = filter P (filter_id k l).
Proof.
  unfold filter_id. induction l as [|o l IH]; [done|].
  rewrite !filter_cons.
  destruct (decide (P o)), (decide (pk o = k));
    rewrite ?filter_cons, ?decide_True, ?decide_False by done;
    by rewrite IH.
Qed.

Lemma filter_id_and (l : list (Obj A)) k :
  filter (λ o, pk o = k ∧ P o) l = filter P (filter_id k l).
Proof.
  unfold filter_id. induction l as [|o l IH]; [done|].
  rewrite !filter_cons.
  destruct (decide (P o)), (decide (pk o = k));
    rewrite ?filter_cons, ?decide_True, ?decide_False by tauto;
    by rewrite IH.
Qed.

End FilterId.

(** ** Public visibility *)

Lemma published_lookup_spec db now (o : Obj Post) :
  published_lookup db now o ↔ public_visibility db now (row o).
Proof.
  unfold published_lookup, public_visibility, category__is_published.
  rewrite !andb_True, bool_decide_spec, !Is_true_true.
  destruct (post_category db (row o)) as [c|]; split.
  - intros [[? ?] ?]. eauto.
  - intros (? & ? & c' & [= <-] & ?). done.
  - intros [[? ?] ?]. done.
  - intros (? & ? & c' & [=] & ?).
Qed.

#[global] Instance public_visibility_dec db now p :
  Decision (public_visibility db now p).
Proof.
  destruct (decide (published_lookup db now (0%nat, p))) as [Hl|Hl];
    [left|right]; by rewrite published_lookup_spec in Hl.
Defined.

(** ** The post page *)

(** An anonymous viewer gets the page of exactly the visible posts. *)
Lemma post_detail_anonymous db request post_id now now' :
  request_user db request = None →
  post_detail request post_id now now' db =
    match posts db !! post_id with
    | Some p =>
        if decide (public_visibility db now p)
        then Ok (detail_page db (post_id, p))
        else Raise Http404
    | None => Raise Http404
    end.
Proof.
  intros Hanon. unfold post_detail. rewrite Hanon.
  unfold filter_published. rewrite filter_id_filter, filter_id_objects.
  destruct (posts db !! post_id) as [p|]; [|done].
  rewrite filter_cons, filter_nil.
  destruct (decide (public_visibility db now p)) as [Hv|Hv].
  - rewrite decide_True by by apply published_lookup_spec. done.
  - rewrite decide_False by by rewrite published_lookup_spec. done.
Qed.

(** The author always gets the page. *)
Lemma post_detail_author db request post_id now now' user p :
  request_user db request = Some user →
  posts db !! post_id = Some p →
  author_id p = pk user →
  post_detail request post_id now now' db = Ok (detail_page db (post_id, p)).
Proof.
  intros Hu Hp Ha. unfold post_detail. rewrite Hu, get_by_id, Hp. cbn.
  rewrite decide_False by (intros Hne; by apply Hne). done.
Qed.

(** A signed-in viewer who is not the author: the page when the post is
    visible, [Http404] when it is not, as long as the test on the post
    never reaches a missing category. Both readings of the clock are [now]. *)
Lemma post_detail_other_user db request post_id now user p :
  request_user db request = Some user →
  posts db !! post_id = Some p →
  author_id p ≠ pk user →
  (is_published (fields p) = true → pub_date (fields p) ≤ now →
   is_Some (post_category db p)) →
  post_detail request post_id now now db =
    if decide (public_visibility db now p)
    then Ok (detail_page db (post_id, p))
    else Raise Http404.
Proof.
  intros Hu Hp Ha Hcat. unfold post_detail.
  rewrite Hu, get_by_id, Hp. cbn. rewrite decide_True by done.
  rewrite filter_id_and, filter_id_objects, Hp, filter_cons, filter_nil.
  unfold publication_conditions. cbn.
  destruct (decide (public_visibility db now p)) as [Hv|Hv].
  - destruct Hv as (-> & Hd & c & -> & Hc).
    rewrite bool_decide_true by done. cbn. rewrite Hc. done.
  - assert (¬ published_lookup db now (post_id, p)) as Hl
      by by rewrite published_lookup_spec.
    rewrite decide_False by done.
    destruct (is_published (fields p)) eqn:Hpub; [|done].
    case_bool_decide as Hd; [|done].
    destruct Hcat as [c Hc]; [done..|]. rewrite Hc. cbn.
    destruct (cat_is_published c) eqn:Hcp; [|done].
    exfalso. apply Hv. unfold public_visibility. eauto.
Qed.

(** A signed-in viewer who is not the author, on a published post dated
    in the past that has no category: the test on the post raises. *)
Lemma post_detail_no_category db request post_id now now' user p :
  request_user db request = Some user →
  posts db !! post_id = Some p →
  author_id p ≠ pk user →
  is_published (fields p) = true →
  pub_date (fields p) ≤ now →
  post_category db p = None →
  post_detail request post_id now now' db = Raise AttributeError.
Proof.
  intros Hu Hp Ha Hpub Hd Hc. unfold post_detail.
  rewrite Hu, get_by_id, Hp. cbn. rewrite decide_True by done.
  unfold publication_conditions. cbn.
  by rewrite Hpub, bool_decide_true, Hc by done.
Qed.

(** C1, at a post without a category. The post is published and dated in
    the past but has no category, so it is not publicly visible, and bob
    is not its author. For the anonymous viewer the view raises [Http404].
    For bob, signed in, it neither renders the page nor raises [Http404]:
    the test [post.category.is_published] raises [AttributeError], which
    Django answers with the 500 page. *)
Theorem post_detail_uncategorised_raises :
  let db := uncategorised_db in
  let post := mkPost (mkPostFields "title" "text" 0 true None None) 1%nat in
  let anonymous := mkRequest None "GET" None [] [] in
  let bob := mkRequest (Some 2%nat) "GET" None [] [] in
  posts db !! 5%nat = Some post
  ∧ ¬ public_visibility db 10 post
  ∧ request_user db bob = Some (2%nat, mkUser "bob")
  ∧ author_id post ≠ 2%nat
  ∧ post_detail anonymous 5 10 10 db = Raise Http404
  ∧ post_detail bob 5 10 10 db = Raise AttributeError.
Proof.
  cbv zeta. split_and!; try by vm_compute.
  intros (_ & _ & c & Hc & _). by vm_compute in Hc.
Qed.

(** ** The annotated list *)

Lemma objects_filter {A} (P : Obj A → Prop) `{∀ o, Decision (P o)}
    (t : gmap nat A) :
  objects (filter P t) ≡ₚ filter P (objects t).
Proof.
  unfold objects. apply NoDup_Permutation.
  - apply NoDup_map_to_list.
  - apply NoDup_filter, NoDup_map_to_list.
  - intros [k r]. rewrite list_elem_of_filter, !elem_of_map_to_list.
    rewrite map_lookup_filter_Some. tauto.
Qed.

Lemma length_post_comments db post_pk :
  length (post_comments db post_pk) = comments_on db post_pk.
Proof.
  unfold post_comments, comments_on.
  rewrite <- objects_filter. unfold objects, row.
  by rewrite length_map_to_list.
Qed.

#[global] Instance pub_date_desc_trans : Transitive pub_date_desc.
Proof. unfold pub_date_desc. intros a b c. lia. Qed.

#[global] Instance pub_date_desc_total : Total pub_date_desc.
Proof. unfold pub_date_desc. intros a b. lia. Qed.

Lemma annotate_comment_count_fst db qs :
  (annotate_comment_count db qs).*1 = qs.
Proof.
  unfold annotate_comment_count. induction qs as [|o qs IH]; [done|].
  cbn. by rewrite IH.
Qed.

Lemma elem_of_annotate_comment_count db qs o n :
  (o, n) ∈ annotate_comment_count db qs ↔ o ∈ qs ∧ n = comments_on db (pk o).
Proof.
  unfold annotate_comment_count. rewrite list_elem_of_fmap. split.
  - intros (o' & [= -> ->] & Hin). by rewrite length_post_comments.
  - intros [Hin ->]. exists o. by rewrite length_post_comments.
Qed.

Lemma filter_published_visibility db now qs :
  filter_published db now qs =
    filter (λ o, public_visibility db now (row o)) qs.
Proof.
  unfold filter_published. apply list_filter_iff.
  intros o. apply published_lookup_spec.
Qed.

(** The list [get_annotated_posts] returns, up to the order. *)
Lemma get_annotated_posts_Permutation db now post_objects show_all :
  get_annotated_posts db now post_objects show_all ≡ₚ
    annotate_comment_count db
      (if show_all then post_objects
       else filter (λ o, public_visibility db now (row o)) post_objects).
Proof.
  unfold get_annotated_posts. rewrite merge_sort_Permutation.
  destruct show_all; cbn; [done|]. by rewrite filter_published_visibility.
Qed.

(** C2. [get_annotated_posts] without [show_all] returns exactly the
    publicly visible posts of its input, with [show_all] the whole input;
    either way each post carries the number of its comments and the list
    is in descending order of [pub_date]; an empty input gives an empty
    list. *)
Theorem get_annotated_posts_spec db now (post_objects : list (Obj Post)) :
  (get_annotated_posts db now post_objects false).*1 ≡ₚ
    filter (λ o, public_visibility db now (row o)) post_objects
  ∧ (get_annotated_posts db now post_objects true).*1 ≡ₚ post_objects
  ∧ (∀ show_all o n,
       (o, n) ∈ get_annotated_posts db now post_objects show_all →
       n = comments_on db (pk o))
  ∧ (∀ show_all,
       StronglySorted pub_date_desc
         (get_annotated_posts db now post_objects show_all))
  ∧ (∀ show_all, get_annotated_posts db now [] show_all = []).
Proof.
  split_and!.
  - by rewrite get_annotated_posts_Permutation, annotate_comment_count_fst.
  - by rewrite get_annotated_posts_Permutation, annotate_comment_count_fst.
  - intros show_all o n.
    rewrite get_annotated_posts_Permutation, elem_of_annotate_comment_count.
    tauto.
  - intros show_all. apply StronglySorted_merge_sort; apply _.
  - by intros [].
Qed.

(** ** Views that write *)

Section WritingViews.
Variable PostForm_clean :
  DB → option (Obj Post) → QueryDict → QueryDict → option PostFields.
Variable CommentForm_clean :
  DB → option (Obj Comment) → QueryDict → option string.

(** C3. A signed-in user who is not the author of an existing post is
    redirected by [edit_post] and by [delete_post] to the page of the
    post, whatever the method of the request, and the database is left
    as it was. *)
Theorem non_author_edit_delete_redirects db request post_id user p :
  request_user db request = Some user →
  posts db !! post_id = Some p →
  pk user ≠ author_id p →
  edit_post PostForm_clean request post_id db =
    (Ok (Redirect (blog_post_detail post_id)), db)
  ∧ delete_post request post_id db =
    (Ok (Redirect (blog_post_detail post_id)), db).
Proof.
  intros Hu Hp Hne.
  unfold edit_post, delete_post, login_required.
  rewrite Hu, get_by_id, Hp. cbn.
  by destruct (decide (pk user ≠ author_id p)).
Qed.

(** C6. For a signed-in user and an existing post [add_comment] always
    answers with the redirect to the page of the post. When the form is
    valid the comments table afterwards is the table before with one row
    more, under a key that was free: the cleaned text, on that post, by
    that user; the other tables are as they were. When the form is not
    valid every table is as it was. *)
Theorem add_comment_redirects db request post_id now user p :
  request_user db request = Some user →
  posts db !! post_id = Some p →
  let form := mkForm (or_None (POST request)) None None in
  let result := add_comment CommentForm_clean request post_id now db in
  result.1 = Ok (Redirect (blog_post_detail post_id))
  ∧ (∀ cleaned,
       CommentForm_cleaned CommentForm_clean db form = Some cleaned →
       let comment := mkComment cleaned now post_id (pk user) in
       ∃ k,
         comments db !! k = None
         ∧ comments result.2 !! k = Some comment
         ∧ comments result.2 = <[k := comment]> (comments db)
         ∧ posts result.2 = posts db
         ∧ users result.2 = users db
         ∧ categories result.2 = categories db)
  ∧ (CommentForm_cleaned CommentForm_clean db form = None →
     comments result.2 = comments db
     ∧ posts result.2 = posts db
     ∧ users result.2 = users db
     ∧ categories result.2 = categories db).
Proof.
  intros Hu Hp form result. subst result form.
  unfold add_comment, login_required.
  rewrite Hu, get_by_id, Hp. cbn. split_and!; [done| |].
  - intros cleaned ->. exists (fresh (dom (comments db))). cbn.
    split_and!; try done.
    + apply not_elem_of_dom, is_fresh.
    + apply lookup_insert_eq.
  - by intros ->.
Qed.

(** C10. [edit_comment] and [delete_comment] find the comment by
    [comment_id] alone and use [post_id] only as the target of the
    redirect. For a signed-in user and an existing comment, on whatever
    post: the database the views leave does not depend on [post_id]; the
    author test reads the comment; a POST of the author to
    [delete_comment] takes the row of the comment out of the comments
    table, and one with a valid form to [edit_comment] puts the cleaned
    text in that row; either way the redirect goes to the page of
    [post_id] and the other tables are as they were. *)
Theorem comment_views_ignore_post_id db request post_id comment_id user c :
  request_user db request = Some user →
  comments db !! comment_id = Some c →
  let edited := edit_comment CommentForm_clean request post_id comment_id db in
  let deleted := delete_comment request post_id comment_id db in
  (∀ post_id',
     edited.2 =
       (edit_comment CommentForm_clean request post_id' comment_id db).2
     ∧ deleted.2 = (delete_comment request post_id' comment_id db).2)
  ∧ (pk user ≠ comment_author c →
     edited = (Ok (Redirect (blog_post_detail post_id)), db)
     ∧ deleted = (Ok (Redirect (blog_post_detail post_id)), db))
  ∧ (pk user = comment_author c →
     method request = "POST" →
     (deleted.1 = Ok (Redirect (blog_post_detail post_id))
      ∧ comments deleted.2 !! comment_id = None
      ∧ comments deleted.2 = delete comment_id (comments db)
      ∧ posts deleted.2 = posts db
      ∧ users deleted.2 = users db
      ∧ categories deleted.2 = categories db)
     ∧ ∀ cleaned,
         CommentForm_cleaned CommentForm_clean db
           (mkForm (or_None (POST request)) None
                   (Some (comment_id, c))) = Some cleaned →
         let saved :=
           mkComment cleaned (created_at c) (comment_post c)
                     (comment_author c) in
         edited.1 = Ok (Redirect (blog_post_detail post_id))
         ∧ comments edited.2 !! comment_id = Some saved
         ∧ comments edited.2 = <[comment_id := saved]> (comments db)
         ∧ posts edited.2 = posts db
         ∧ users edited.2 = users db
         ∧ categories edited.2 = categories db).
Proof.
  intros Hu Hc edited deleted. subst edited deleted.
  unfold edit_comment, delete_comment, login_required.
  rewrite Hu, !get_by_id, Hc. cbn. split_and!.
  - intros post_id'. repeat case_decide; try done.
    by destruct (CommentForm_cleaned _ _ _).
  - intros Hne. by destruct (decide (pk user ≠ comment_author c)).
  - intros Heq Hpost.
    destruct (decide (pk user ≠ comment_author c)); [done|].
    destruct (decide (method request = "POST")); [|done].
    cbn. split.
    + split_and!; try done. apply lookup_delete_eq.
    + intros cleaned ->. cbn. split_and!; try done. apply lookup_insert_eq.
Qed.

End WritingViews.

(** ** Pagination *)

Lemma last_page_bounds {A} (items : list A) :
  1 ≤ last_page items
  ∧ 10 * (last_page items - 1) < Z.max 1 (Z.of_nat (length items))
      ≤ 10 * last_page items.
Proof. unfold last_page, ceil_div. Z.div_mod_to_equations. lia. Qed.

Lemma num_pages_ten {A} (items : list A) :
  num_pages (mkPaginator items 10) = Ok (last_page items).
Proof.
  unfold num_pages, count, last_page. cbn [per_page pg_object_list].
  rewrite decide_False by done. by rewrite Z.sub_0_r.
Qed.

Lemma slice_page_slice {A} (items : list A) n :
  1 ≤ n →
  let bottom := (n - 1) * 10 in
  let count := Z.of_nat (length items) in
  slice items bottom
        (if decide (bottom + 10 + 0 >= count) then count else bottom + 10)
  = page_slice items n.
Proof.
  intros Hn bottom count. unfold slice, page_slice.
  replace (Z.to_nat bottom) with (10 * Z.to_nat (n - 1))%nat by (subst bottom; lia).
  case_decide as Hc.
  - rewrite !take_ge; [done|rewrite length_drop; subst bottom count; lia..].
  - f_equal. lia.
Qed.

(** A page number in range gives that page. *)
Lemma page_in_range {A} (items : list A) n :
  1 ≤ n ≤ last_page items →
  page (mkPaginator items 10) n =
    Ok (mkPage (page_slice items n) n (mkPaginator items 10)).
Proof.
  intros Hn. unfold page, validate_number.
  rewrite decide_False by lia. rewrite num_pages_ten. cbn.
  rewrite decide_False by lia. cbn. unfold count. cbn.
  by rewrite slice_page_slice by lia.
Qed.

Lemma get_page_ten {A} (items : list A) number :
  get_page (mkPaginator items 10) number =
    Ok (mkPage (page_slice items (settled_page items number))
               (settled_page items number) (mkPaginator items 10)).
Proof.
  pose proof (last_page_bounds items) as [Hl _].
  unfold get_page, validate_number, settled_page.
  destruct number as [k|]; [|by rewrite page_in_range by lia].
  rewrite num_pages_ten. cbn -[page].
  destruct (decide (k < 1)).
  - rewrite decide_False by lia. by rewrite page_in_range by lia.
  - cbn -[page]. destruct (decide (k > last_page items)).
    + rewrite decide_False by lia. by rewrite page_in_range by lia.
    + rewrite decide_True by lia. by rewrite page_in_range by lia.
Qed.

(** C4, as the views have it. [get_paginator] with pages of ten never
    fails. A page number in range gives the slice of that page, counted
    from one; an absent or non-integer parameter gives the first page; an
    integer outside the range, above the last page or below the first,
    gives the last page. For 25 items there are three pages, page 1 has
    ten items, page 3 has five and page 4 is answered with page 3. *)
Theorem get_paginator_spec {A} (request : Request) (items : list A) :
  let paginator := mkPaginator items 10 in
  let last := last_page items in
  let n :=
    match GET_page request with
    | None => 1
    | Some k => if decide (1 ≤ k ≤ last) then k else last
    end in
  num_pages paginator = Ok last
  ∧ 1 ≤ n ≤ last
  ∧ get_paginator request items 10 =
      Ok (mkPage (page_slice items n) n paginator)
  ∧ (length items = 25%nat →
       last = 3
       ∧ (GET_page request = Some 1 → length (page_slice items n) = 10%nat)
       ∧ (GET_page request = Some 3 → length (page_slice items n) = 5%nat)
       ∧ (GET_page request = Some 4 → n = 3)).
Proof.
  intros paginator last n.
  pose proof (last_page_bounds items) as [Hl Hb]. fold last in Hl, Hb.
  split; [|split; [|split]].
  - apply num_pages_ten.
  - subst n. destruct (GET_page request) as [k|]; [case_decide|]; lia.
  - unfold get_paginator. apply get_page_ten.
  - intros Hlen.
    assert (last = 3) as H3 by (rewrite Hlen in Hb; lia).
    subst n. split_and!; [done|..]; intros ->; rewrite H3; cbn.
    + unfold page_slice. rewrite length_take, length_drop, Hlen. by cbn.
    + unfold page_slice. rewrite length_take, length_drop, Hlen. by cbn.
    + done.
Qed.

(** C4, a page number below the range: with 25 items, page 0 is answered
    with the last page, the third, and not with the nearest one, the
    first. *)
Lemma get_paginator_page_zero :
  let request := mkRequest None "GET" (Some 0) [] [] in
  let items := seq 0 25 in
  nearest_valid_page 0 (last_page items) = 1
  ∧ number <$> get_paginator request items 10 = Ok 3
  ∧ object_list <$> get_paginator request items 10
    = Ok [20; 21; 22; 23; 24]%nat
  ∧ number <$> get_paginator request items 10
    ≠ Ok (nearest_valid_page 0 (last_page items)).
Proof. cbv zeta. split_and!; by vm_compute. Qed.

(** ** Lookups by a unique field *)

Section UniqueField.
Context {A : Type} (P : Obj A → Prop) `{∀ o, Decision (P o)}.
Implicit Types (t : gmap nat A).

Lemma get_where_none t :
  (∀ k r, t !! k = Some r → ¬ P (k, r)) →
  get_object_or_404 (filter P (objects t)) = Raise Http404.
Proof.
  intros Hnone.
  destruct (filter P (objects t)) as [|[k r] l] eqn:Hf; [done|].
  exfalso. apply (Hnone k r).
  - apply elem_of_map_to_list. fold (objects t).
    eapply (proj1 (list_elem_of_filter P _ _)). rewrite Hf. left.
  - eapply (proj1 (list_elem_of_filter P _ _)). rewrite Hf. left.
Qed.

Lemma get_where_unique t k r :
  t !! k = Some r →
  P (k, r) →
  (∀ k' r', t !! k' = Some r' → P (k', r') → k' = k) →
  get_object_or_404 (filter P (objects t)) = Ok (k, r).
Proof.
  intros Hk HP Huniq.
  assert (filter P (objects t) ≡ₚ [(k, r)]) as Hperm.
  { apply NoDup_Permutation.
    - apply NoDup_filter, NoDup_map_to_list.
    - apply NoDup_singleton.
    - intros [k' r']. unfold objects.
      rewrite list_elem_of_filter, elem_of_map_to_list, list_elem_of_singleton.
      split.
      + intros [HP' Hk']. assert (k' = k) as -> by eauto. congruence.
      + intros [= -> ->]. done. }
  apply Permutation_singleton_r in Hperm. by rewrite Hperm.
Qed.

End UniqueField.

(** ** The category page *)

(** C7. [category_posts] raises [Http404] when every category with the
    slug is unpublished, so both when there is none and when the one
    there is has [is_published] off. When the category with the slug is
    published, the page shows it with a page of its listing, and the
    listing holds exactly the publicly visible posts of the category. *)
Theorem category_posts_spec db request category_slug now :
  ((∀ k c, categories db !! k = Some c → slug c = category_slug →
           cat_is_published c = false) →
   category_posts request category_slug now db = Raise Http404)
  ∧ (∀ k c,
       categories db !! k = Some c →
       slug c = category_slug →
       cat_is_published c = true →
       (∀ k' c', categories db !! k' = Some c' → slug c' = category_slug →
                 k' = k) →
       let listing :=
         get_annotated_posts db now (category_posts_all db k) false in
       let n := settled_page listing (GET_page request) in
       category_posts request category_slug now db =
         Ok (Render "blog/category.html"
               (CategoryCtx (k, c)
                  (mkPage (page_slice listing n) n (mkPaginator listing 10))))
       ∧ ∀ o, o ∈ listed listing ↔
              posts db !! pk o = Some (row o)
              ∧ category_id (fields (row o)) = Some k
              ∧ public_visibility db now (row o)).
Proof.
  split.
  - intros Hunpub. unfold category_posts.
    rewrite get_where_none; [done|].
    intros k c Hk [Hs Hp]. cbn in *. specialize (Hunpub k c Hk Hs). congruence.
  - intros k c Hk Hs Hp Huniq listing n. split.
    + unfold category_posts.
      rewrite (get_where_unique _ _ k c); [|done|done|].
      * cbn -[get_paginator]. unfold get_paginator. fold listing.
        by rewrite get_page_ten.
      * intros k' c' Hk' [Hs' _]. eauto.
    + intros [i p]. unfold listed. subst listing.
      rewrite get_annotated_posts_Permutation, annotate_comment_count_fst.
      unfold category_posts_all, objects.
      rewrite !list_elem_of_filter, elem_of_map_to_list. cbn. tauto.
Qed.

(** ** The profile page *)

(** The page [profile] renders for the one user with the name. *)
Lemma profile_page db request name now k u :
  users db !! k = Some u →
  username u = name →
  (∀ k' u', users db !! k' = Some u' → username u' = name → k' = k) →
  let show_all := bool_decide (request_user db request = Some (k, u)) in
  let listing := get_annotated_posts db now (user_posts_all db k) show_all in
  let n := settled_page listing (GET_page request) in
  profile request name now db =
    Ok (Render "blog/profile.html"
          (ProfileCtx (k, u)
             (mkPage (page_slice listing n) n (mkPaginator listing 10)))).
Proof.
  intros Hk Hname Huniq show_all listing n. unfold profile.
  rewrite (get_where_unique _ _ k u); [|done|done|by eauto].
  cbn -[get_paginator]. unfold get_paginator.
  assert (match request_user db request with
          | Some request_user => bool_decide (pk request_user = k)
          | None => false
          end = show_all) as ->.
  { subst show_all. unfold request_user.
    destruct (session_user request) as [j|]; cbn; [|done].
    destruct (users db !! j) as [u'|] eqn:Hj; cbn; [|done].
    unfold pk. cbn. apply bool_decide_ext. split.
    - intros ->. congruence.
    - by intros [= -> _]. }
  fold listing. by rewrite get_page_ten.
Qed.

(** The posts in the listing of a user. *)
Lemma listed_user_posts db now k show_all o :
  o ∈ listed (get_annotated_posts db now (user_posts_all db k) show_all) ↔
    posts db !! pk o = Some (row o)
    ∧ author_id (row o) = k
    ∧ (show_all = true ∨ public_visibility db now (row o)).
Proof.
  destruct o as [i p]. unfold listed.
  rewrite get_annotated_posts_Permutation, annotate_comment_count_fst.
  unfold user_posts_all, objects. destruct show_all.
  - rewrite list_elem_of_filter, elem_of_map_to_list. cbn. tauto.
  - rewrite !list_elem_of_filter, elem_of_map_to_list. cbn.
    split; [tauto|]. intros (? & ? & [[=]|?]). tauto.
Qed.

(** C5. The listing of a profile holds a post of the profile's user that
    is not publicly visible exactly when the viewer is signed in as that
    very user; for every other viewer, signed in or not, it holds the
    publicly visible posts of that user and no other. *)
Theorem profile_listing db request name now k u :
  users db !! k = Some u →
  username u = name →
  (∀ k' u', users db !! k' = Some u' → username u' = name → k' = k) →
  let show_all := bool_decide (request_user db request = Some (k, u)) in
  let listing := get_annotated_posts db now (user_posts_all db k) show_all in
  let n := settled_page listing (GET_page request) in
  profile request name now db =
    Ok (Render "blog/profile.html"
          (ProfileCtx (k, u)
             (mkPage (page_slice listing n) n (mkPaginator listing 10))))
  ∧ ∀ o, o ∈ listed listing ↔
         posts db !! pk o = Some (row o)
         ∧ author_id (row o) = k
         ∧ (request_user db request = Some (k, u)
            ∨ public_visibility db now (row o)).
Proof.
  intros Hk Hname Huniq show_all listing n. split.
  - by apply profile_page.
  - intros o. subst listing. rewrite listed_user_posts.
    subst show_all. rewrite bool_decide_eq_true. tauto.
Qed.

(** ** Creating a post *)

Section CreatePost.
Variable PostForm_clean :
  DB → option (Obj Post) → QueryDict → QueryDict → option PostFields.

(** C9. When a signed-in user submits a valid form to [create_post], a
    row is added to the posts table under a new key, with the cleaned
    fields and the user as author, and the user is sent to the own
    profile. A request of the same session for that profile, at whatever
    time, is then answered with a page whose listing holds the new post,
    whatever its publication flag and date. *)
Theorem create_post_then_profile db request request' now user cleaned :
  request_user db request = Some user →
  method request = "POST" →
  PostForm_cleaned PostForm_clean db
    (mkForm (or_None (POST request)) (or_None (FILES request)) None)
    = Some cleaned →
  (∀ k' u', users db !! k' = Some u' → username u' = username (row user) →
            k' = pk user) →
  session_user request' = session_user request →
  let result := create_post PostForm_clean request db in
  let post := mkPost cleaned (pk user) in
  ∃ new_id,
    posts db !! new_id = None
    ∧ result =
        (Ok (Redirect (blog_profile (username (row user)))),
         set_posts db (<[new_id := post]> (posts db)))
    ∧ posts result.2 !! new_id = Some post
    ∧ author_id post = pk user
    ∧ ∃ page_obj,
        profile request' (username (row user)) now result.2 =
          Ok (Render "blog/profile.html" (ProfileCtx user page_obj))
        ∧ (new_id, post) ∈ listed (pg_object_list (paginator page_obj)).
Proof.
  destruct user as [k u]. intros Hu Hm Hc Huniq Hs result post.
  unfold pk, row in *. cbn [fst snd] in *.
  exists (fresh (dom (posts db))).
  assert (result =
          (Ok (Redirect (blog_profile (username u))),
           set_posts db (<[fresh (dom (posts db)) := post]> (posts db))))
    as Hres.
  { subst result. unfold create_post, login_required.
    rewrite Hu, decide_True by done. by rewrite Hc. }
  assert (users db !! k = Some u) as Hrow.
  { unfold request_user in Hu.
    destruct (session_user request) as [j|]; [|done]. cbn in Hu.
    destruct (users db !! j) as [u'|] eqn:Hj; [|done].
    cbn in Hu. by injection Hu as <- <-. }
  assert (request_user result.2 request' = Some (k, u)) as Hu'.
  { rewrite Hres. unfold request_user in *. by rewrite Hs. }
  split_and!.
  - apply not_elem_of_dom, is_fresh.
  - done.
  - rewrite Hres. cbn. apply lookup_insert_eq.
  - done.
  - eexists. split.
    + apply (profile_page result.2 request' (username u) now k u);
        [by rewrite Hres|done|].
      intros k' u'. rewrite Hres. apply Huniq.
    + cbn. apply listed_user_posts. rewrite Hres. cbn. split_and!.
      * apply lookup_insert_eq.
      * done.
      * left. apply bool_decide_eq_true. by rewrite Hres in Hu'.
Qed.

End CreatePost.

(** ** Counting comments *)

Lemma comments_on_insert_comment db c :
  comments_on (insert_comment db c) (comment_post c) =
    S (comments_on db (comment_post c)).
Proof.
  unfold comments_on, insert_comment. cbn.
  rewrite map_filter_insert_True by done.
  apply map_size_insert_None, map_lookup_filter_None_2. left.
  apply not_elem_of_dom, is_fresh.
Qed.

Section CommentCount.
Variable CommentForm_clean :
  DB → option (Obj Comment) → QueryDict → option string.

(** One call of [add_comment] that creates a comment. *)
Lemma add_comment_created db request post_id now user p cleaned :
  request_user db request = Some user →
  posts db !! post_id = Some p →
  CommentForm_cleaned CommentForm_clean db
    (mkForm (or_None (POST request)) None None) = Some cleaned →
  (add_comment CommentForm_clean request post_id now db).2 =
    insert_comment db (mkComment cleaned now post_id (pk user)).
Proof.
  intros Hu Hp Hc. unfold add_comment, login_required.
  rewrite Hu, get_by_id, Hp. cbn. by rewrite Hc.
Qed.

Lemma commented_count db db' post_id p N :
  posts db !! post_id = Some p →
  commented CommentForm_clean post_id db N db' →
  posts db' = posts db
  ∧ comments_on db' post_id = (comments_on db post_id + N)%nat.
Proof.
  intros Hp Hsteps. induction Hsteps as [db|db n db' request now user cleaned Hu Hc _ IH].
  - split; [done|lia].
  - rewrite (add_comment_created _ _ _ _ user p cleaned) in IH by done.
    destruct IH as [Hposts Hcount]; [done|]. split; [done|].
    rewrite Hcount.
    pose proof (comments_on_insert_comment db
                  (mkComment cleaned now post_id (pk user))) as Hins.
    cbn in Hins. lia.
Qed.

(** C8. After [N] comments have been created on a post, whatever list
    [get_annotated_posts] is asked for, the post carries in it the count
    it had before plus [N], so [N] for a post that had no comment; and
    the post is in the listing of all posts, with that count. *)
Theorem comment_count_round_trip db db' post_id p N :
  posts db !! post_id = Some p →
  commented CommentForm_clean post_id db N db' →
  (∀ now post_objects show_all o n,
     (o, n) ∈ get_annotated_posts db' now post_objects show_all →
     pk o = post_id →
     n = (comments_on db post_id + N)%nat)
  ∧ (∀ now,
       ((post_id, p), (comments_on db post_id + N)%nat)
         ∈ get_annotated_posts db' now (objects (posts db')) true)
  ∧ (comments_on db post_id = 0%nat →
     ∀ now,
       ((post_id, p), N)
         ∈ get_annotated_posts db' now (objects (posts db')) true).
Proof.
  intros Hp Hsteps.
  destruct (commented_count db db' post_id p N Hp Hsteps) as [Hposts Hcount].
  assert (∀ now,
            ((post_id, p), (comments_on db post_id + N)%nat)
              ∈ get_annotated_posts db' now (objects (posts db')) true)
    as Hlisted.
  { intros now.
    rewrite get_annotated_posts_Permutation, elem_of_annotate_comment_count.
    split; [|done]. apply elem_of_map_to_list. by rewrite Hposts. }
  split_and!.
  - intros now post_objects show_all o n.
    rewrite get_annotated_posts_Permutation, elem_of_annotate_comment_count.
    intros [_ ->] ->. done.
  - done.
  - intros Hzero now. specialize (Hlisted now). by rewrite Hzero in Hlisted.
Qed.

End CommentCount.

(** ** The properties on the small blog *)

(** Bob posts to the edit and delete pages of a post of alice. *)
Lemma non_author_edit_delete_redirects_witness :
  let request := bob_posts [("title", "mine")] in
  edit_post sample_PostForm_clean request 5 sample_db =
    (Ok (Redirect (blog_post_detail 5)), sample_db)
  ∧ delete_post request 5 sample_db =
    (Ok (Redirect (blog_post_detail 5)), sample_db).
Proof.
  apply (non_author_edit_delete_redirects sample_PostForm_clean sample_db
           (bob_posts [("title", "mine")]) 5 (2%nat, mkUser "bob")
           (mkPost (mkPostFields "first" "a" 0 true (Some 1%nat) None) 1%nat));
    by vm_compute.
Defined.

(** Bob looks at the profile of alice: the visible post only. *)
Lemma profile_listing_witness :
  let listing :=
    get_annotated_posts sample_db 10 (user_posts_all sample_db 1) false in
  profile bob_gets "alice" 10 sample_db =
    Ok (Render "blog/profile.html"
          (ProfileCtx (1%nat, mkUser "alice")
             (mkPage (page_slice listing 1) 1 (mkPaginator listing 10))))
  ∧ ∀ o, o ∈ listed listing ↔
         posts sample_db !! pk o = Some (row o)
         ∧ author_id (row o) = 1%nat
         ∧ (request_user sample_db bob_gets = Some (1%nat, mkUser "alice")
            ∨ public_visibility sample_db 10 (row o)).
Proof.
  apply (profile_listing sample_db bob_gets "alice" 10 1%nat (mkUser "alice"));
    [by vm_compute..|].
  intros k' u' Hk' Hu'.
  destruct (decide (k' = 1%nat)) as [|Hne1]; [done|].
  destruct (decide (k' = 2%nat)) as [->|Hne2].
  - vm_compute in Hk'. injection Hk' as <-. by vm_compute in Hu'.
  - unfold sample_db in Hk'. cbn in Hk'.
    by rewrite !lookup_insert_ne, lookup_empty in Hk'.
Defined.

(** Bob comments the first post of alice, with a valid form and then
    with an empty text, which the form refuses. *)
Lemma add_comment_redirects_witness :
  let valid :=
    add_comment sample_CommentForm_clean (bob_posts [("text", "nice")]) 5 20
      sample_db in
  let invalid :=
    add_comment sample_CommentForm_clean (bob_posts [("text", "")]) 5 20
      sample_db in
  (valid.1 = Ok (Redirect (blog_post_detail 5))
   ∧ ∃ k,
       comments sample_db !! k = None
       ∧ comments valid.2 !! k = Some (mkComment "nice" 20 5 2%nat)
       ∧ comments valid.2 =
           <[k := mkComment "nice" 20 5 2%nat]> (comments sample_db)
       ∧ posts valid.2 = posts sample_db
       ∧ users valid.2 = users sample_db
       ∧ categories valid.2 = categories sample_db)
  ∧ (invalid.1 = Ok (Redirect (blog_post_detail 5))
     ∧ comments invalid.2 = comments sample_db
     ∧ posts invalid.2 = posts sample_db
     ∧ users invalid.2 = users sample_db
     ∧ categories invalid.2 = categories sample_db).
Proof.
  cbv zeta. split.
  - destruct (add_comment_redirects sample_CommentForm_clean sample_db
                (bob_posts [("text", "nice")]) 5 20 (2%nat, mkUser "bob")
                (mkPost (mkPostFields "first" "a" 0 true (Some 1%nat) None)
                        1%nat))
      as (Hredirect & Hvalid & _); [by vm_compute..|].
    split; [exact Hredirect|]. apply (Hvalid "nice"). by vm_compute.
  - destruct (add_comment_redirects sample_CommentForm_clean sample_db
                (bob_posts [("text", "")]) 5 20 (2%nat, mkUser "bob")
                (mkPost (mkPostFields "first" "a" 0 true (Some 1%nat) None)
                        1%nat))
      as (Hredirect & _ & Hinvalid); [by vm_compute..|].
    split; [exact Hredirect|]. apply Hinvalid. by vm_compute.
Defined.

(** Two comments on the hidden post, which had none. *)
Lemma comment_count_round_trip_witness :
  let hidden := mkPost (mkPostFields "hidden" "b" 0 false (Some 1%nat) None) 1%nat in
  comments_on sample_db 6 = 0%nat
  ∧ ∀ now,
      ((6%nat, hidden), 2%nat)
        ∈ get_annotated_posts commented_db now (objects (posts commented_db)) true.
Proof.
  cbv zeta. split; [by vm_compute|].
  refine (proj2 (proj2 (comment_count_round_trip sample_CommentForm_clean
                   sample_db commented_db 6
                   (mkPost (mkPostFields "hidden" "b" 0 false (Some 1%nat) None) 1%nat)
                   2 _ _)) _); [by vm_compute| |by vm_compute].
  eapply (commented_cons _ _ _ _ _ (bob_posts [("text", "one")]) 20);
    [by vm_compute..|].
  eapply (commented_cons _ _ _ _ _ (alice_posts [("text", "two")]) 21);
    [by vm_compute..|].
  apply commented_nil.
Defined.

(** Alice creates a post, unpublished and dated in the future, and then
    opens her profile. *)
Lemma create_post_then_profile_witness :
  let request := alice_posts [("title", "new")] in
  let result := create_post sample_PostForm_clean request sample_db in
  let post := mkPost (mkPostFields "new" "" 100 false (Some 1%nat) None) 1%nat in
  ∃ new_id,
    posts sample_db !! new_id = None
    ∧ result =
        (Ok (Redirect (blog_profile "alice")),
         set_posts sample_db (<[new_id := post]> (posts sample_db)))
    ∧ posts result.2 !! new_id = Some post
    ∧ author_id post = 1%nat
    ∧ ∃ page_obj,
        profile alice_gets "alice" 10 result.2 =
          Ok (Render "blog/profile.html"
                (ProfileCtx (1%nat, mkUser "alice") page_obj))
        ∧ (new_id, post) ∈ listed (pg_object_list (paginator page_obj)).
Proof.
  apply (create_post_then_profile sample_PostForm_clean sample_db
           (alice_posts [("title", "new")]) alice_gets 10
           (1%nat, mkUser "alice")
           (mkPostFields "new" "" 100 false (Some 1%nat) None));
    [by vm_compute..| |by vm_compute].
  intros k' u' Hk' Hu'. unfold pk. cbn.
  destruct (decide (k' = 1%nat)) as [|Hne1]; [done|].
  destruct (decide (k' = 2%nat)) as [->|Hne2].
  - vm_compute in Hk'. injection Hk' as <-. by vm_compute in Hu'.
  - unfold sample_db in Hk'. cbn in Hk'.
    by rewrite !lookup_insert_ne, lookup_empty in Hk'.
Defined.

(** Bob edits and deletes his comment, which is on post 5, through the
    addresses of post 8. *)
Lemma comment_views_ignore_post_id_witness :
  let request := bob_posts [("text", "edited")] in
  let c := mkComment "hi" 1 5%nat 2%nat in
  let edited := edit_comment sample_CommentForm_clean request 8 1 sample_db in
  let deleted := delete_comment request 8 1 sample_db in
  comments sample_db !! 1%nat = Some c
  ∧ comment_post c ≠ 8%nat
  ∧ (deleted.1 = Ok (Redirect (blog_post_detail 8))
     ∧ comments deleted.2 !! 1%nat = None
     ∧ comments deleted.2 = delete 1%nat (comments sample_db)
     ∧ posts deleted.2 = posts sample_db
     ∧ users deleted.2 = users sample_db
     ∧ categories deleted.2 = categories sample_db)
  ∧ (edited.1 = Ok (Redirect (blog_post_detail 8))
     ∧ comments edited.2 !! 1%nat = Some (mkComment "edited" 1 5%nat 2%nat)
     ∧ comments edited.2 =
         <[1%nat := mkComment "edited" 1 5%nat 2%nat]> (comments sample_db)
     ∧ posts edited.2 = posts sample_db
     ∧ users edited.2 = users sample_db
     ∧ categories edited.2 = categories sample_db).
Proof.
  cbv zeta. split; [by vm_compute|]. split; [by vm_compute|].
  destruct (comment_views_ignore_post_id sample_CommentForm_clean sample_db
              (bob_posts [("text", "edited")]) 8 1 (2%nat, mkUser "bob")
              (mkComment "hi" 1 5%nat 2%nat))
    as (_ & _ & Hauthor); [by vm_compute..|].
  destruct Hauthor as [Hdelete Hedit]; [by vm_compute..|].
  split; [exact Hdelete|]. apply (Hedit "edited"). by vm_compute.
Defined.

(** The category pages of the small blog: no category [sport], an
    unpublished category [drafts], and [news] with its one visible post. *)
Lemma category_posts_spec_witness :
  category_posts bob_gets "sport" 10 sample_db = Raise Http404
  ∧ category_posts bob_gets "drafts" 10 sample_db = Raise Http404
  ∧ ∃ page_obj,
      category_posts bob_gets "news" 10 sample_db =
        Ok (Render "blog/category.html"
              (CategoryCtx (1%nat, mkCategory "news" true) page_obj))
      ∧ listed (object_list page_obj) =
          [(5%nat, mkPost (mkPostFields "first" "a" 0 true (Some 1%nat) None)
                          1%nat)].
Proof.
  assert (∀ k c, categories sample_db !! k = Some c →
                 (k = 1%nat ∧ c = mkCategory "news" true)
                 ∨ (k = 2%nat ∧ c = mkCategory "drafts" false)) as Hcats.
  { intros k c Hk.
    destruct (decide (k = 1%nat)) as [->|Hne1];
      [left; vm_compute in Hk; by injection Hk as <-|].
    destruct (decide (k = 2%nat)) as [->|Hne2];
      [right; vm_compute in Hk; by injection Hk as <-|].
    unfold sample_db in Hk. cbn in Hk.
    by rewrite !lookup_insert_ne, lookup_empty in Hk. }
  split_and!.
  - apply (proj1 (category_posts_spec sample_db bob_gets "sport" 10)).
    intros k c Hk Hs. by destruct (Hcats k c Hk) as [[-> ->]|[-> ->]].
  - apply (proj1 (category_posts_spec sample_db bob_gets "drafts" 10)).
    intros k c Hk Hs. by destruct (Hcats k c Hk) as [[-> ->]|[-> ->]].
  - eexists. split.
    + apply (proj2 (category_posts_spec sample_db bob_gets "news" 10) 1%nat
               (mkCategory "news" true)); [by vm_compute..|].
      intros k c Hk Hs. by destruct (Hcats k c Hk) as [[-> ->]|[-> ->]].
    + by vm_compute.
Defined.

(** Page 4 of 25 items. *)
Lemma get_paginator_spec_witness :
  let request := mkRequest None "GET" (Some 4) [] [] in
  get_paginator request (seq 0 25) 10 =
    Ok (mkPage [20; 21; 22; 23; 24]%nat 3 (mkPaginator (seq 0 25) 10)).
Proof.
  exact (proj1 (proj2 (proj2 (get_paginator_spec
           (mkRequest None "GET" (Some 4) [] []) (seq 0 25))))).
Defined.

(** * Further properties of the views *)

(** ** Listings *)

Lemma listed_visible db now qs o :
  o ∈ listed (get_annotated_posts db now qs false) ↔
    o ∈ qs ∧ public_visibility db now (row o).
Proof.
  unfold listed.
  rewrite get_annotated_posts_Permutation, annotate_comment_count_fst.
  rewrite list_elem_of_filter. tauto.
Qed.

Lemma NoDup_listed db now qs show_all :
  NoDup qs → NoDup (listed (get_annotated_posts db now qs show_all)).
Proof.
  intros Hnd. unfold listed.
  rewrite get_annotated_posts_Permutation, annotate_comment_count_fst.
  destruct show_all; [done|]. by apply NoDup_filter.
Qed.

(** X1. [index] never fails: it renders a page of the listing of all
    posts. The listing holds the publicly visible posts of the database
    and no other, each once, newest first. *)
Theorem index_listing request now db :
  let listing := get_annotated_posts db now (objects (posts db)) false in
  let n := settled_page listing (GET_page request) in
  index request now db =
    Ok (Render "blog/index.html"
          (IndexCtx (mkPage (page_slice listing n) n (mkPaginator listing 10))))
  ∧ (∀ o, o ∈ listed listing ↔
          posts db !! pk o = Some (row o) ∧ public_visibility db now (row o))
  ∧ NoDup (listed listing)
  ∧ StronglySorted pub_date_desc listing.
Proof.
  intros listing n. split_and!.
  - unfold index, get_paginator. fold listing. by rewrite get_page_ten.
  - intros [k p]. subst listing. rewrite listed_visible.
    unfold objects. by rewrite elem_of_map_to_list.
  - apply NoDup_listed, NoDup_map_to_list.
  - apply StronglySorted_merge_sort; apply _.
Qed.

(** X2. What the public sees is part of what the owner sees: the list
    without [show_all] is, up to the order, a sublist of the list with it,
    annotations included; and it grows with time: an entry listed at one
    time is listed at every later time. *)
Theorem get_annotated_posts_grows db now now' post_objects :
  get_annotated_posts db now post_objects false
    ⊆+ get_annotated_posts db now post_objects true
  ∧ (now ≤ now' →
     get_annotated_posts db now post_objects false
       ⊆+ get_annotated_posts db now' post_objects false).
Proof.
  split.
  - rewrite !get_annotated_posts_Permutation.
    unfold annotate_comment_count. apply fmap_submseteq.
    apply sublist_submseteq, sublist_filter.
  - intros Hle. rewrite !get_annotated_posts_Permutation.
    unfold annotate_comment_count. apply fmap_submseteq.
    apply sublist_submseteq.
    induction post_objects as [|o qs IH]; [done|].
    rewrite !filter_cons.
    destruct (decide (public_visibility db now (row o))) as [Hv|Hv].
    + rewrite decide_True; [by constructor|].
      destruct Hv as (? & ? & ?). split_and!; [done|lia|done].
    + case_decide; [by constructor|done].
Qed.

(** X3. The listings of the category pages and of the profiles are part
    of the listing of [index]: a post listed for a category, or for a user
    without [show_all], is listed on the index at that time. *)
Theorem listed_on_index db now k o :
  (o ∈ listed (get_annotated_posts db now (category_posts_all db k) false)
   ∨ o ∈ listed (get_annotated_posts db now (user_posts_all db k) false)) →
  o ∈ listed (get_annotated_posts db now (objects (posts db)) false).
Proof.
  rewrite !listed_visible. unfold category_posts_all, user_posts_all.
  rewrite !list_elem_of_filter. tauto.
Qed.

(** ** The post page, case by case *)

#[global] Instance created_at_asc_trans : Transitive created_at_asc.
Proof. unfold created_at_asc. intros a b c. lia. Qed.

#[global] Instance created_at_asc_total : Total created_at_asc.
Proof. unfold created_at_asc. intros a b. lia. Qed.

(** Every path of [post_detail]. *)
Lemma post_detail_cases request post_id now now' db :
  post_detail request post_id now now' db =
    match posts db !! post_id with
    | None => Raise Http404
    | Some p =>
        let page := Ok (detail_page db (post_id, p)) in
        match request_user db request with
        | None =>
            if decide (public_visibility db now p) then page
            else Raise Http404
        | Some user =>
            if decide (author_id p = pk user) then page
            else if decide (public_visibility db now p) then page
            else if decide (is_published (fields p) = true
                            ∧ pub_date (fields p) ≤ now
                            ∧ post_category db p = None)
            then Raise AttributeError
            else if decide (public_visibility db now' p) then page
            else Raise Http404
        end
    end.
Proof.
  destruct (request_user db request) as [user|] eqn:Hu.
  - destruct (posts db !! post_id) as [p|] eqn:Hp.
    + cbv zeta. destruct (decide (author_id p = pk user)) as [Ha|Ha];
        [by apply (post_detail_author _ _ _ _ _ user)|].
      unfold post_detail. rewrite Hu, get_by_id, Hp. cbn.
      rewrite decide_True by done.
      rewrite filter_id_and, filter_id_objects, Hp, filter_cons, filter_nil.
      unfold publication_conditions. cbn.
      destruct (decide (public_visibility db now p)) as [Hv|Hv].
      { destruct Hv as (-> & Hd & c & -> & Hc).
        rewrite bool_decide_true by done. cbn. by rewrite Hc. }
      assert ((if decide (published_lookup db now' (post_id, p))
               then [(post_id, p)] else []) =
              if decide (public_visibility db now' p)
              then [(post_id, p)] else []) as ->.
      { destruct (decide (public_visibility db now' p)).
        - by rewrite decide_True by by apply published_lookup_spec.
        - by rewrite decide_False by by rewrite published_lookup_spec. }
      destruct (decide (is_published (fields p) = true
                        ∧ pub_date (fields p) ≤ now
                        ∧ post_category db p = None))
        as [(Hpub & Hd & Hc)|Hno].
      { by rewrite Hpub, bool_decide_true, Hc by done. }
      destruct (is_published (fields p)) eqn:Hpub; cbn;
        [|by destruct (decide (public_visibility db now' p))].
      case_bool_decide as Hd; cbn;
        [|by destruct (decide (public_visibility db now' p))].
      destruct (post_category db p) as [c|] eqn:Hc; cbn; [|by destruct Hno].
      destruct (cat_is_published c) eqn:Hcp; cbn.
      * exfalso. apply Hv. unfold public_visibility. eauto.
      * by destruct (decide (public_visibility db now' p)).
    + unfold post_detail. by rewrite Hu, get_by_id, Hp.
  - rewrite post_detail_anonymous by done.
    by destruct (posts db !! post_id).
Qed.


(** X4. [post_detail] never shows a post to somebody who may not see it:
    when it answers with a page, that is the page of the post stored under
    [post_id], and the viewer is signed in as its author or the post is
    publicly visible at one of the two times the view reads the clock. *)
Theorem post_detail_sound request post_id now now' db response :
  post_detail request post_id now now' db = Ok response →
  ∃ p,
    posts db !! post_id = Some p
    ∧ response = detail_page db (post_id, p)
    ∧ ((∃ user, request_user db request = Some user ∧ author_id p = pk user)
       ∨ public_visibility db now p
       ∨ public_visibility db now' p).
Proof.
  rewrite post_detail_cases.
  destruct (posts db !! post_id) as [p|]; [|done]. cbv zeta.
  intros Hr. exists p. split; [done|].
  destruct (request_user db request) as [user|].
  - repeat case_decide; try done; injection Hr as <-; eauto 6.
  - case_decide; [|done]. injection Hr as <-. eauto.
Qed.

(** X5. [post_detail] on a [post_id] that is not in the posts table
    raises [Http404], whoever asks and whenever. *)
Theorem post_detail_missing request post_id now now' db :
  posts db !! post_id = None →
  post_detail request post_id now now' db = Raise Http404.
Proof. intros Hp. by rewrite post_detail_cases, Hp. Qed.


(** X7. The links of the index can be followed: a post in the listing of
    [index] is shown by [post_detail] to every viewer at that time; and
    what [post_detail] shows an anonymous viewer is in the listing. *)
Theorem index_posts_open db now o :
  (o ∈ listed (get_annotated_posts db now (objects (posts db)) false) →
   ∀ request now',
     post_detail request (pk o) now now' db = Ok (detail_page db o))
  ∧ (∀ request now',
       request_user db request = None →
       post_detail request (pk o) now now' db = Ok (detail_page db o) →
       o ∈ listed (get_annotated_posts db now (objects (posts db)) false)).
Proof.
  destruct o as [k p]. unfold pk. cbn [fst]. split.
  - rewrite listed_visible. unfold objects. rewrite elem_of_map_to_list.
    intros [Hp Hv] request now'. rewrite post_detail_cases, Hp. cbv zeta.
    destruct (request_user db request); repeat case_decide; done.
  - intros request now' Hu. rewrite post_detail_cases, Hu.
    destruct (posts db !! k) as [p'|] eqn:Hp; [|done]. cbv zeta.
    case_decide as Hv; [|done]. unfold detail_page.
    intros [= <-]. apply listed_visible. split; [|done].
    by apply elem_of_map_to_list.
Qed.

(** X8. When [post_detail] fails, it is with [Http404] on a post that is
    missing or is not publicly visible at the first reading of the clock,
    or with [AttributeError] on a post without a category asked for by a
    signed-in user who is not its author; with nothing else. *)
Theorem post_detail_failures request post_id now now' db e :
  post_detail request post_id now now' db = Raise e →
  (e = Http404
   ∧ (posts db !! post_id = None
      ∨ ∃ p, posts db !! post_id = Some p ∧ ¬ public_visibility db now p))
  ∨ (e = AttributeError
     ∧ ∃ p user,
         posts db !! post_id = Some p
         ∧ request_user db request = Some user
         ∧ author_id p ≠ pk user
         ∧ post_category db p = None).
Proof.
  rewrite post_detail_cases.
  destruct (posts db !! post_id) as [p|]; [|intros [= <-]; eauto].
  cbv zeta. destruct (request_user db request) as [user|].
  - destruct (decide (author_id p = pk user)); [done|].
    destruct (decide (public_visibility db now p)); [done|].
    case_decide as Hc.
    + intros [= <-]. right. destruct Hc as (_ & _ & Hc). eauto 10.
    + case_decide; [done|]. intros [= <-]. left. eauto.
  - case_decide; [done|]. intros [= <-]. left. eauto.
Qed.

(** ** The pages of a listing *)

Lemma page_items_slice {A} (items : list A) k :
  page_items items k = page_slice items (settled_page items (Some k)).
Proof. unfold page_items, get_paginator. by rewrite get_page_ten. Qed.

Lemma concat_slices {A} (items : list A) (n : nat) :
  concat ((λ i : nat, take 10 (drop (10 * i) items)) <$> seq 0 n) =
    take (10 * n) items.
Proof.
  induction n as [|n IH]; [done|].
  rewrite seq_S, fmap_app, concat_app, IH. cbn [fmap list_fmap concat].
  rewrite app_nil_r, take_take_drop. f_equal. lia.
Qed.

(** X9. The pages [get_paginator] shows for the page numbers from one to
    the last, one after the other, are the list: no item is left out, none
    comes twice and the order is kept. Whatever the page number, a page
    has at most ten items, and it has one at least unless the list is
    empty. *)
Theorem pages_cover {A} (items : list A) :
  concat (page_items items <$> seqZ 1 (last_page items)) = items
  ∧ ∀ k, (length (page_items items k) ≤ 10)%nat
         ∧ (items ≠ [] → page_items items k ≠ []).
Proof.
  pose proof (last_page_bounds items) as [Hl Hb]. split.
  - unfold seqZ. rewrite <- list_fmap_compose.
    rewrite (list_fmap_ext _ (λ i : nat, take 10 (drop (10 * i) items))).
    + rewrite concat_slices. apply take_ge.
      generalize dependent (last_page items). intros last ? ?. lia.
    + intros i j Hj. apply lookup_seq in Hj as [-> Hi]. cbn.
      rewrite page_items_slice. unfold settled_page.
      rewrite decide_True by lia. unfold page_slice. do 3 f_equal. lia.
  - intros k. rewrite page_items_slice. unfold page_slice. split.
    + rewrite length_take. lia.
    + intros Hne Hnil. apply (f_equal length) in Hnil.
      rewrite length_take, length_drop in Hnil.
      change (length (@nil A)) with 0%nat in Hnil.
      assert (0 < length items)%nat by (destruct items; [done|cbn; lia]).
      assert (1 ≤ settled_page items (Some k) ≤ last_page items)
        by (unfold settled_page; case_decide; lia).
      lia.
Qed.

(** ** A name nobody has *)

(** X10. [profile] raises [Http404] for a name no user has, whoever asks. *)
Theorem profile_unknown_user db request name now :
  (∀ k u, users db !! k = Some u → username u ≠ name) →
  profile request name now db = Raise Http404.
Proof.
  intros Hnone. unfold profile. rewrite get_where_none; [done|].
  intros k u Hk Hu. by apply (Hnone k u).
Qed.

(** ** Writing to the posts table *)

Section PostWrites.
Variable PostForm_clean :
  DB → option (Obj Post) → QueryDict → QueryDict → option PostFields.

(** X11. Only the author writes to a post, and only by POST: when
    [edit_post] or [delete_post] leaves a database other than the one it
    found, the request is a POST of a signed-in user and the post under
    [post_id] is of that user. *)
Theorem post_writes_need_author db request post_id :
  (edit_post PostForm_clean request post_id db).2 ≠ db
  ∨ (delete_post request post_id db).2 ≠ db →
  method request = "POST"
  ∧ ∃ user p,
      request_user db request = Some user
      ∧ posts db !! post_id = Some p
      ∧ author_id p = pk user.
Proof.
  unfold edit_post, delete_post, login_required.
  destruct (request_user db request) as [user|]; [|by intros [?|?]].
  rewrite get_by_id.
  destruct (posts db !! post_id) as [p|]; [|by intros [?|?]]. cbn.
  destruct (decide (pk user ≠ author_id p)) as [|Ha]; [by intros [?|?]|].
  destruct (decide (method request = "POST")); [|by intros [?|?]].
  intros _. split; [done|]. exists user, p. split_and!; [done..|].
  by destruct (decide (author_id p = pk user)) as [|Hne]; [|destruct Ha].
Qed.

(** X12. [edit_post] never moves a post to another author and never adds
    or removes one: for every request, the posts table afterwards has the
    rows it had, each with the author it had, every post other than the
    one under [post_id] is as it was, and so are the other tables. *)
Theorem edit_post_keeps_authors db request post_id :
  let db' := (edit_post PostForm_clean request post_id db).2 in
  (∀ k, author_id <$> posts db' !! k = author_id <$> posts db !! k)
  ∧ (∀ k, k ≠ post_id → posts db' !! k = posts db !! k)
  ∧ users db' = users db
  ∧ categories db' = categories db
  ∧ comments db' = comments db.
Proof.
  unfold edit_post, login_required.
  destruct (request_user db request) as [user|]; [|done].
  rewrite get_by_id.
  destruct (posts db !! post_id) as [p|] eqn:Hp; [|done]. cbn.
  repeat case_decide; try done.
  destruct (PostForm_clean _ _ _ _) as [cleaned|]; [|done]. cbn.
  split_and!; try done.
  - intros k. destruct (decide (k = post_id)) as [->|Hne].
    + by rewrite lookup_insert_eq, Hp.
    + by rewrite lookup_insert_ne.
  - intros k Hne. by rewrite lookup_insert_ne.
Qed.

(** X13. The author edits a post: a POST with a valid form writes the
    cleaned fields over the post, keeps its author and redirects to its
    page, and the author is then shown the post as written; a POST with an
    invalid form gives the form back and writes nothing. *)
Theorem edit_post_by_author db request post_id user p :
  request_user db request = Some user →
  posts db !! post_id = Some p →
  author_id p = pk user →
  method request = "POST" →
  let form :=
    mkForm (Some (POST request)) (or_None (FILES request))
           (Some (post_id, p)) in
  match PostForm_cleaned PostForm_clean db form with
  | Some cleaned =>
      let post := mkPost cleaned (author_id p) in
      let db' := set_posts db (<[post_id := post]> (posts db)) in
      edit_post PostForm_clean request post_id db =
        (Ok (Redirect (blog_post_detail post_id)), db')
      ∧ ∀ request' now now',
          session_user request' = session_user request →
          post_detail request' post_id now now' db' =
            Ok (detail_page db' (post_id, post))
  | None =>
      edit_post PostForm_clean request post_id db =
        (Ok (Render "blog/create.html" (PostFormCtx form)), db)
  end.
Proof.
  intros Hu Hp Ha Hm form.
  assert (edit_post PostForm_clean request post_id db =
          match PostForm_cleaned PostForm_clean db form with
          | Some cleaned =>
              (Ok (Redirect (blog_post_detail post_id)),
               set_posts db
                 (<[post_id := mkPost cleaned (author_id p)]> (posts db)))
          | None => (Ok (Render "blog/create.html" (PostFormCtx form)), db)
          end) as ->.
  { unfold edit_post, login_required. rewrite Hu, get_by_id, Hp. cbn.
    rewrite decide_False by (intros Hne; by apply Hne).
    by rewrite decide_True by done. }
  destruct (PostForm_cleaned PostForm_clean db form) as [cleaned|]; [|done].
  cbv zeta. split; [done|].
  intros request' now now' Hs.
  apply (post_detail_author _ _ _ _ _ user).
  - unfold request_user in *. by rewrite Hs.
  - cbn. apply lookup_insert_eq.
  - done.
Qed.

End PostWrites.

(** X14. The author deletes a post by POST: the post is gone and so are
    its comments, the other posts and the comments on them are as they
    were, nothing else changes, the answer is the redirect to the index,
    and from then on [post_detail] raises [Http404] under that [post_id],
    whoever asks. *)
Theorem delete_post_by_author db request post_id user p :
  request_user db request = Some user →
  posts db !! post_id = Some p →
  author_id p = pk user →
  method request = "POST" →
  let result := delete_post request post_id db in
  result.1 = Ok (Redirect blog_index)
  ∧ posts result.2 = delete post_id (posts db)
  ∧ (∀ k c, comments result.2 !! k = Some c ↔
            comments db !! k = Some c ∧ comment_post c ≠ post_id)
  ∧ comments_on result.2 post_id = 0%nat
  ∧ users result.2 = users db
  ∧ categories result.2 = categories db
  ∧ ∀ request' now now',
      post_detail request' post_id now now' result.2 = Raise Http404.
Proof.
  intros Hu Hp Ha Hm result.
  assert (result = (Ok (Redirect blog_index), delete_post_cascade db post_id))
    as ->.
  { subst result. unfold delete_post, login_required.
    rewrite Hu, get_by_id, Hp. cbn.
    rewrite decide_False by (intros Hne; by apply Hne).
    by rewrite decide_True by done. }
  cbn. split_and!; try done.
  - intros k c. by rewrite map_lookup_filter_Some.
  - unfold comments_on. cbn. apply map_size_empty_iff, map_empty.
    intros k. apply map_lookup_filter_None_2. right. intros c Hc.
    apply map_lookup_filter_Some in Hc as [_ Hne]. done.
  - intros request' now now'. rewrite post_detail_cases. cbn.
    by rewrite lookup_delete_eq.
Qed.

Section CreateKeeps.
Variable PostForm_clean :
  DB → option (Obj Post) → QueryDict → QueryDict → option PostFields.

(** X15. [create_post] only ever adds: for every request, the posts that
    were there are there unchanged, one post at most is new, the other
    tables are as they were; and a new post is always in the name of the
    signed-in user who sent the request, by POST. *)
Theorem create_post_keeps db request :
  let db' := (create_post PostForm_clean request db).2 in
  posts db ⊆ posts db'
  ∧ (size (posts db') ≤ S (size (posts db)))%nat
  ∧ users db' = users db
  ∧ categories db' = categories db
  ∧ comments db' = comments db
  ∧ ∀ k p,
      posts db' !! k = Some p →
      posts db !! k = None →
      method request = "POST"
      ∧ ∃ user, request_user db request = Some user ∧ author_id p = pk user.
Proof.
  unfold create_post, login_required.
  destruct (request_user db request) as [user|];
    [|cbn; split_and!; try done; [lia|congruence]].
  destruct (decide (method request = "POST"));
    [|cbn; split_and!; try done; [lia|congruence]].
  destruct (PostForm_cleaned _ _ _) as [cleaned|];
    [|cbn; split_and!; try done; [lia|congruence]].
  cbn. assert (posts db !! fresh (dom (posts db)) = None) as Hfresh
    by apply not_elem_of_dom, is_fresh.
  split_and!; try done.
  - by apply insert_subseteq.
  - by rewrite map_size_insert_None.
  - intros k p Hk Hnew. split; [done|]. exists user. split; [done|].
    apply lookup_insert_Some in Hk as [[_ <-]|[_ Hk]]; [done|congruence].
Qed.

End CreateKeeps.

(** ** Writing to the comments table *)

Lemma comments_on_ext db db' post_pk :
  (∀ k, comment_post <$> comments db' !! k = comment_post <$> comments db !! k) →
  comments_on db' post_pk = comments_on db post_pk.
Proof.
  intros Hext. unfold comments_on.
  rewrite <- !(size_dom (D := gset nat)). f_equal. apply set_eq. intros k.
  rewrite !elem_of_dom. unfold is_Some.
  setoid_rewrite map_lookup_filter_Some. cbn. specialize (Hext k).
  destruct (comments db' !! k) as [c'|], (comments db !! k) as [c|];
    cbn in Hext; try done; injection Hext as Hext; split.
  - intros (? & [= <-] & ?). exists c. split; [done|congruence].
  - intros (? & [= <-] & ?). exists c'. split; [done|congruence].
Qed.

Lemma comments_on_insert_other db k c post_pk :
  comments db !! k = None →
  comment_post c ≠ post_pk →
  comments_on (set_comments db (<[k := c]> (comments db))) post_pk =
    comments_on db post_pk.
Proof.
  intros Hk Hne. unfold comments_on. cbn.
  rewrite map_filter_insert_False by done. by rewrite delete_id.
Qed.

Lemma comments_on_delete db k c post_pk :
  comments db !! k = Some c →
  (comments_on (set_comments db (delete k (comments db))) post_pk
   + if decide (comment_post c = post_pk) then 1 else 0)%nat =
    comments_on db post_pk.
Proof.
  intros Hk. unfold comments_on. cbn. rewrite map_filter_delete.
  rewrite map_size_delete. case_decide as Hp.
  - rewrite (map_lookup_filter_Some_2 _ _ _ c) by done.
    assert (size (filter (λ kc : nat * Comment, comment_post kc.2 = post_pk)
                         (comments db)) ≠ 0%nat); [|lia].
    apply map_size_ne_0_lookup_2 with k.
    by rewrite (map_lookup_filter_Some_2 _ _ _ c).
  - rewrite (map_lookup_filter_None_2 _ _ k); [cbn; lia|].
    right. intros c' Hc'. cbn. congruence.
Qed.

Section CommentWrites.
Variable CommentForm_clean :
  DB → option (Obj Comment) → QueryDict → option string.

(** X16. [add_comment] only ever adds, and only to an existing post in the
    name of the sender: for every request, the comments that were there
    are there unchanged, the other tables are as they were and so is the
    count of every other post; a new comment is on the post under
    [post_id], which exists, by the signed-in user who sent the request,
    at the time of the request. On a [post_id] that is not in the posts
    table a signed-in user gets [Http404]. *)
Theorem add_comment_keeps db request post_id now :
  let result := add_comment CommentForm_clean request post_id now db in
  comments db ⊆ comments result.2
  ∧ posts result.2 = posts db
  ∧ users result.2 = users db
  ∧ categories result.2 = categories db
  ∧ (∀ k, k ≠ post_id → comments_on result.2 k = comments_on db k)
  ∧ (∀ k c,
       comments result.2 !! k = Some c →
       comments db !! k = None →
       is_Some (posts db !! post_id)
       ∧ comment_post c = post_id
       ∧ created_at c = now
       ∧ ∃ user,
           request_user db request = Some user ∧ comment_author c = pk user)
  ∧ (is_Some (request_user db request) →
     posts db !! post_id = None →
     result = (Raise Http404, db)).
Proof.
  unfold add_comment, login_required.
  destruct (request_user db request) as [user|];
    [|cbn; split_and!; first [done|congruence|by intros [? [=]]]].
  rewrite get_by_id.
  destruct (posts db !! post_id) as [p|] eqn:Hp;
    [|cbn; split_and!; first [done|congruence]].
  cbn. destruct (CommentForm_cleaned _ _ _) as [cleaned|];
    [|cbn; split_and!; first [done|congruence]].
  cbn. assert (comments db !! fresh (dom (comments db)) = None) as Hfresh
    by apply not_elem_of_dom, is_fresh.
  split_and!; try done.
  - by apply insert_subseteq.
  - intros k Hne.
    apply (comments_on_insert_other db _
             (mkComment cleaned now post_id (pk user))); [done|].
    cbn. congruence.
  - intros k c Hk Hnew.
    apply lookup_insert_Some in Hk as [[_ <-]|[_ Hk]]; [|congruence].
    cbn. split_and!; [by eexists|done..|]. by exists user.
Qed.

End CommentWrites.

(** The comments table plays no part in who is shown a post. *)
Lemma post_detail_set_comments request post_id now now' db t :
  post_detail request post_id now now' (set_comments db t) =
    match post_detail request post_id now now' db with
    | Ok _ =>
        match posts db !! post_id with
        | Some p => Ok (detail_page (set_comments db t) (post_id, p))
        | None => Raise Http404
        end
    | Raise e => Raise e
    end.
Proof.
  rewrite !post_detail_cases.
  change (posts (set_comments db t)) with (posts db).
  change (request_user (set_comments db t) request)
    with (request_user db request).
  destruct (posts db !! post_id) as [p|]; [|done]. cbv zeta.
  change (public_visibility (set_comments db t) now p)
    with (public_visibility db now p).
  change (public_visibility (set_comments db t) now' p)
    with (public_visibility db now' p).
  change (post_category (set_comments db t) p) with (post_category db p).
  destruct (request_user db request); repeat case_decide; done.
Qed.

Section CommentRoundTrips.
Variable CommentForm_clean :
  DB → option (Obj Comment) → QueryDict → option string.

(** X17. A comment shows up on the page: after a signed-in user has sent
    a valid comment form for a post, whoever was shown the post before is
    shown it now with the new comment among its comments, the cleaned text
    by that user, and with one comment more than the post had. *)
Theorem add_comment_then_detail db request post_id now user p cleaned :
  request_user db request = Some user →
  posts db !! post_id = Some p →
  CommentForm_cleaned CommentForm_clean db
    (mkForm (or_None (POST request)) None None) = Some cleaned →
  let db' := (add_comment CommentForm_clean request post_id now db).2 in
  ∀ request' t t' response,
    post_detail request' post_id t t' db = Ok response →
    ∃ k shown,
      comments db !! k = None
      ∧ post_detail request' post_id t t' db' =
          Ok (Render "blog/detail.html"
                (DetailCtx (post_id, p) (mkForm None None None) shown))
      ∧ (k, mkComment cleaned now post_id (pk user)) ∈ shown
      ∧ length shown = S (comments_on db post_id).
Proof.
  intros Hu Hp Hc db' request' t t' response Hr.
  assert (db' = insert_comment db (mkComment cleaned now post_id (pk user)))
    as Hdb'.
  { subst db'. unfold add_comment, login_required.
    rewrite Hu, get_by_id, Hp. cbn. by rewrite Hc. }
  exists (fresh (dom (comments db))),
    (merge_sort created_at_asc (post_comments db' post_id)).
  assert (comments db !! fresh (dom (comments db)) = None) as Hfresh
    by apply not_elem_of_dom, is_fresh.
  split_and!.
  - done.
  - rewrite Hdb'. unfold insert_comment.
    by rewrite post_detail_set_comments, Hr, Hp.
  - rewrite merge_sort_Permutation. unfold post_comments, objects.
    rewrite list_elem_of_filter, elem_of_map_to_list. split; [done|].
    rewrite Hdb'. cbn. apply lookup_insert_eq.
  - rewrite merge_sort_Permutation, length_post_comments, Hdb'.
    apply (comments_on_insert_comment db
             (mkComment cleaned now post_id (pk user))).
Qed.

(** X18. A comment can be taken back: after a signed-in user has sent a
    valid comment form for a post, a POST of the same session to
    [delete_comment] for the new comment, under whatever [post_id], gives
    back the database as it was before the comment. *)
Theorem add_then_delete_comment db request post_id now user p cleaned :
  request_user db request = Some user →
  posts db !! post_id = Some p →
  CommentForm_cleaned CommentForm_clean db
    (mkForm (or_None (POST request)) None None) = Some cleaned →
  let db' := (add_comment CommentForm_clean request post_id now db).2 in
  ∃ k,
    comments db !! k = None
    ∧ comments db' !! k = Some (mkComment cleaned now post_id (pk user))
    ∧ ∀ request' post_id',
        session_user request' = session_user request →
        method request' = "POST" →
        delete_comment request' post_id' k db' =
          (Ok (Redirect (blog_post_detail post_id')), db).
Proof.
  intros Hu Hp Hc db'.
  assert (db' = insert_comment db (mkComment cleaned now post_id (pk user)))
    as ->.
  { subst db'. unfold add_comment, login_required.
    rewrite Hu, get_by_id, Hp. cbn. by rewrite Hc. }
  exists (fresh (dom (comments db))).
  assert (comments db !! fresh (dom (comments db)) = None) as Hfresh
    by apply not_elem_of_dom, is_fresh.
  split_and!; [done|apply lookup_insert_eq|].
  intros request' post_id' Hs Hm.
  unfold delete_comment, login_required.
  assert (request_user
            (insert_comment db (mkComment cleaned now post_id (pk user)))
            request' = Some user) as ->.
  { unfold request_user in *. by rewrite Hs. }
  rewrite get_by_id. cbn. rewrite lookup_insert_eq. cbn.
  rewrite decide_False by (intros Hne; by apply Hne).
  rewrite decide_True by done.
  unfold delete_comment_row, set_comments. cbn.
  rewrite delete_insert_id by done. by destruct db.
Qed.

(** X19. Only the author writes to a comment, and only by POST: when
    [edit_comment] or [delete_comment] leaves a database other than the
    one it found, the request is a POST of a signed-in user and the
    comment under [comment_id] is of that user. *)
Theorem comment_writes_need_author db request post_id comment_id :
  (edit_comment CommentForm_clean request post_id comment_id db).2 ≠ db
  ∨ (delete_comment request post_id comment_id db).2 ≠ db →
  method request = "POST"
  ∧ ∃ user c,
      request_user db request = Some user
      ∧ comments db !! comment_id = Some c
      ∧ comment_author c = pk user.
Proof.
  unfold edit_comment, delete_comment, login_required.
  destruct (request_user db request) as [user|]; [|by intros [?|?]].
  rewrite get_by_id.
  destruct (comments db !! comment_id) as [c|]; [|by intros [?|?]]. cbn.
  destruct (decide (pk user ≠ comment_author c)) as [|Ha];
    [by intros [?|?]|].
  destruct (decide (method request = "POST")); [|by intros [?|?]].
  intros _. split; [done|]. exists user, c. split_and!; [done..|].
  by destruct (decide (comment_author c = pk user)) as [|Hne];
    [|destruct Ha].
Qed.

(** X20. [edit_comment] changes the text of a comment and nothing else:
    for every request, every comment afterwards is on the post, by the
    author and of the time it was, the comments other than the one under
    [comment_id] are as they were, no post gains or loses a comment, and
    the other tables are as they were. *)
Theorem edit_comment_keeps db request post_id comment_id :
  let db' :=
    (edit_comment CommentForm_clean request post_id comment_id db).2 in
  let frame c := (created_at c, comment_post c, comment_author c) in
  (∀ k, frame <$> comments db' !! k = frame <$> comments db !! k)
  ∧ (∀ k, k ≠ comment_id → comments db' !! k = comments db !! k)
  ∧ (∀ k, comments_on db' k = comments_on db k)
  ∧ posts db' = posts db
  ∧ users db' = users db
  ∧ categories db' = categories db.
Proof.
  intros db' frame.
  assert (∀ k, frame <$> comments db' !! k = frame <$> comments db !! k)
    as Hframe.
  { subst db'. unfold edit_comment, login_required.
    destruct (request_user db request) as [user|]; [|done].
    rewrite get_by_id.
    destruct (comments db !! comment_id) as [c|] eqn:Hc; [|done]. cbn.
    repeat case_decide; try done.
    destruct (CommentForm_cleaned _ _ _) as [cleaned|]; [|done]. cbn.
    intros k. destruct (decide (k = comment_id)) as [->|Hne].
    - by rewrite lookup_insert_eq, Hc.
    - by rewrite lookup_insert_ne. }
  split_and!; [done|..].
  - subst db'. unfold edit_comment, login_required.
    destruct (request_user db request) as [user|]; [|done].
    rewrite get_by_id.
    destruct (comments db !! comment_id) as [c|]; [|done]. cbn.
    repeat case_decide; try done.
    destruct (CommentForm_cleaned _ _ _) as [cleaned|]; [|done]. cbn.
    intros k Hne. by rewrite lookup_insert_ne.
  - intros k. apply comments_on_ext. intros j. specialize (Hframe j).
    unfold frame in Hframe.
    destruct (comments db' !! j), (comments db !! j);
      cbn in Hframe; [|done..]. injection Hframe as _ Hpost _.
    cbn. by rewrite Hpost.
  - subst db'. unfold edit_comment, login_required.
    destruct (request_user db request); [|done]. rewrite get_by_id.
    destruct (comments db !! comment_id); [|done]. cbn.
    repeat case_decide; try done. by destruct (CommentForm_cleaned _ _ _).
  - subst db'. unfold edit_comment, login_required.
    destruct (request_user db request); [|done]. rewrite get_by_id.
    destruct (comments db !! comment_id); [|done]. cbn.
    repeat case_decide; try done. by destruct (CommentForm_cleaned _ _ _).
  - subst db'. unfold edit_comment, login_required.
    destruct (request_user db request); [|done]. rewrite get_by_id.
    destruct (comments db !! comment_id); [|done]. cbn.
    repeat case_decide; try done. by destruct (CommentForm_cleaned _ _ _).
Qed.

End CommentRoundTrips.

(** X21. The author deletes a comment by POST: its post has one comment
    less, every other post has the comments it had, the other comments
    and the other tables are as they were. *)
Theorem delete_comment_by_author db request post_id comment_id user c :
  request_user db request = Some user →
  comments db !! comment_id = Some c →
  comment_author c = pk user →
  method request = "POST" →
  let db' := (delete_comment request post_id comment_id db).2 in
  comments db' = delete comment_id (comments db)
  ∧ S (comments_on db' (comment_post c)) = comments_on db (comment_post c)
  ∧ (∀ k, k ≠ comment_post c → comments_on db' k = comments_on db k)
  ∧ posts db' = posts db
  ∧ users db' = users db
  ∧ categories db' = categories db.
Proof.
  intros Hu Hc Ha Hm db'.
  assert (db' = set_comments db (delete comment_id (comments db))) as ->.
  { subst db'. unfold delete_comment, login_required.
    rewrite Hu, get_by_id, Hc. cbn.
    rewrite decide_False by (intros Hne; by apply Hne).
    by rewrite decide_True by done. }
  split_and!; try done.
  - pose proof (comments_on_delete db comment_id c (comment_post c) Hc) as Hd.
    rewrite decide_True in Hd by done. lia.
  - intros k Hne.
    pose proof (comments_on_delete db comment_id c k Hc) as Hd.
    rewrite decide_False in Hd by done. lia.
Qed.

(** ** Editing the profile *)

Lemma request_user_Some db request k u :
  request_user db request = Some (k, u) ↔
    session_user request = Some k ∧ users db !! k = Some u.
Proof.
  unfold request_user. destruct (session_user request) as [j|]; cbn.
  - destruct (users db !! j) as [v|] eqn:Hj; cbn.
    + split; [by intros [= <- <-]|]. intros [[= <-] Hk]. congruence.
    + split; [done|]. intros [[= <-] Hk]. congruence.
  - split; [done|]. by intros [[=] _].
Qed.

Section ProfileWrites.
Variable ProfileEditForm_clean : DB → Obj User → QueryDict → option User.

(** X22. [edit_profile] writes to the row of the sender and to nothing
    else: for every request, posts, comments and categories are as they
    were, no user is added or removed, and a row of the users table that
    differs afterwards is the row of the session's user, on a POST. *)
Theorem edit_profile_own_row db request :
  let db' := (edit_profile ProfileEditForm_clean request db).2 in
  posts db' = posts db
  ∧ comments db' = comments db
  ∧ categories db' = categories db
  ∧ dom (users db') = dom (users db)
  ∧ ∀ k, users db' !! k ≠ users db !! k →
         method request = "POST" ∧ session_user request = Some k.
Proof.
  unfold edit_profile.
  destruct (request_user db request) as [[j u]|] eqn:Hu; [|done].
  apply request_user_Some in Hu as [Hs Hj].
  destruct (decide (method request = "POST")); [|done].
  destruct (ProfileEditForm_clean _ _ _) as [cleaned|]; [|done]. cbn.
  split_and!; try done.
  - apply dom_insert_lookup_L. by eexists.
  - intros k Hk. split; [done|].
    destruct (decide (j = k)) as [<-|Hne]; [done|].
    by rewrite lookup_insert_ne in Hk.
Qed.

(** X23. The posts follow the user under the new name: after a signed-in
    user has sent a valid profile form, the answer is the redirect to the
    profile under the name the user has now, and (no other user having
    that name) a request of the same session for that profile is answered
    with the page of the same user and the listing, with [show_all], of
    the posts the user had. *)
Theorem edit_profile_then_profile db request k u cleaned :
  request_user db request = Some (k, u) →
  method request = "POST" →
  ProfileEditForm_clean db (k, u) (POST request) = Some cleaned →
  (∀ k' v, users db !! k' = Some v → k' ≠ k → username v ≠ username cleaned) →
  let result := edit_profile ProfileEditForm_clean request db in
  result.1 = Ok (RedirectFromProfile (blog_profile (username cleaned)))
  ∧ users result.2 = <[k := cleaned]> (users db)
  ∧ ∀ request' now,
      session_user request' = session_user request →
      let listing := get_annotated_posts db now (user_posts_all db k) true in
      let n := settled_page listing (GET_page request') in
      profile request' (username cleaned) now result.2 =
        Ok (Render "blog/profile.html"
              (ProfileCtx (k, cleaned)
                 (mkPage (page_slice listing n) n (mkPaginator listing 10)))).
Proof.
  intros Hu Hm Hc Huniq result.
  assert (result =
          (Ok (RedirectFromProfile (blog_profile (username cleaned))),
           set_users db (<[k := cleaned]> (users db)))) as ->.
  { subst result. unfold edit_profile.
    by rewrite Hu, decide_True, Hc by done. }
  apply request_user_Some in Hu as [Hs Hk].
  split_and!; [done..|].
  intros request' now Hs' listing n. cbn [snd].
  set (db' := set_users db (<[k := cleaned]> (users db))).
  pose proof (profile_page db' request' (username cleaned) now k cleaned)
    as Hpage.
  assert (request_user db' request' = Some (k, cleaned)) as Hu'.
  { apply request_user_Some. rewrite Hs', Hs. split; [done|].
    apply lookup_insert_eq. }
  cbv zeta in Hpage. rewrite Hu', bool_decide_true in Hpage by done.
  apply Hpage; [apply lookup_insert_eq|done|].
  intros k' v Hk' Hv. destruct (decide (k' = k)) as [|Hne]; [done|].
  subst db'. cbn in Hk'. rewrite lookup_insert_ne in Hk' by done.
  by destruct (Huniq k' v).
Qed.

End ProfileWrites.

(** ** The further properties on the small blog *)

Lemma sample_users k u :
  users sample_db !! k = Some u →
  (k = 1%nat ∧ u = mkUser "alice") ∨ (k = 2%nat ∧ u = mkUser "bob").
Proof.
  intros Hk.
  destruct (decide (k = 1%nat)) as [->|Hne1];
    [left; vm_compute in Hk; by injection Hk as <-|].
  destruct (decide (k = 2%nat)) as [->|Hne2];
    [right; vm_compute in Hk; by injection Hk as <-|].
  unfold sample_db in Hk. cbn in Hk.
  by rewrite !lookup_insert_ne, lookup_empty in Hk.
Qed.

(** The first post, listed for the category [news], is on the index. *)
Lemma listed_on_index_witness :
  let first := mkPost (mkPostFields "first" "a" 0 true (Some 1%nat) None) 1%nat in
  (5%nat, first)
    ∈ listed (get_annotated_posts sample_db 10 (objects (posts sample_db)) false).
Proof.
  apply (listed_on_index sample_db 10 1%nat). left. vm_compute. left.
Defined.

(** Alice opens her hidden post. *)
Lemma post_detail_sound_witness :
  let hidden := mkPost (mkPostFields "hidden" "b" 0 false (Some 1%nat) None) 1%nat in
  ∃ p,
    posts sample_db !! 6%nat = Some p
    ∧ detail_page sample_db (6%nat, hidden) = detail_page sample_db (6%nat, p)
    ∧ ((∃ user, request_user sample_db alice_gets = Some user
                ∧ author_id p = pk user)
       ∨ public_visibility sample_db 10 p
       ∨ public_visibility sample_db 10 p).
Proof.
  apply (post_detail_sound alice_gets 6 10 10 sample_db). by vm_compute.
Defined.

(** Nobody gets post 99. *)
Lemma post_detail_missing_witness :
  post_detail bob_gets 99 10 10 sample_db = Raise Http404.
Proof. apply post_detail_missing. by vm_compute. Defined.


(** Bob asks for the hidden post of alice. *)
Lemma post_detail_failures_witness :
  (Http404 = Http404
   ∧ (posts sample_db !! 6%nat = None
      ∨ ∃ p, posts sample_db !! 6%nat = Some p
             ∧ ¬ public_visibility sample_db 10 p))
  ∨ (Http404 = AttributeError
     ∧ ∃ p user,
         posts sample_db !! 6%nat = Some p
         ∧ request_user sample_db bob_gets = Some user
         ∧ author_id p ≠ pk user
         ∧ post_category sample_db p = None).
Proof.
  apply (post_detail_failures bob_gets 6 10 10 sample_db Http404).
  by vm_compute.
Defined.

(** Nobody is called carol. *)
Lemma profile_unknown_user_witness :
  profile bob_gets "carol" 10 sample_db = Raise Http404.
Proof.
  apply profile_unknown_user. intros k u Hk.
  by destruct (sample_users k u Hk) as [[-> ->]|[-> ->]].
Defined.

(** Alice deletes her first post. *)
Lemma post_writes_need_author_witness :
  method (alice_posts []) = "POST"
  ∧ ∃ user p,
      request_user sample_db (alice_posts []) = Some user
      ∧ posts sample_db !! 5%nat = Some p
      ∧ author_id p = pk user.
Proof.
  apply (post_writes_need_author sample_PostForm_clean). right.
  intros Heq. apply (f_equal (λ db, posts db !! 5%nat)) in Heq.
  by vm_compute in Heq.
Defined.

(** Alice renames her first post, which the form also unpublishes. *)
Lemma edit_post_by_author_witness :
  let first := mkPost (mkPostFields "first" "a" 0 true (Some 1%nat) None) 1%nat in
  let post :=
    mkPost (mkPostFields "renamed" "" 100 false (Some 1%nat) None) 1%nat in
  let db' := set_posts sample_db (<[5%nat := post]> (posts sample_db)) in
  edit_post sample_PostForm_clean (alice_posts [("title", "renamed")]) 5
    sample_db = (Ok (Redirect (blog_post_detail 5)), db')
  ∧ ∀ request' now now',
      session_user request' = Some 1%nat →
      post_detail request' 5 now now' db' = Ok (detail_page db' (5%nat, post)).
Proof.
  refine (edit_post_by_author sample_PostForm_clean sample_db
            (alice_posts [("title", "renamed")]) 5 (1%nat, mkUser "alice")
            (mkPost (mkPostFields "first" "a" 0 true (Some 1%nat) None) 1%nat)
            _ _ _ _); by vm_compute.
Defined.

(** Alice deletes her first post, and the comment of bob with it. *)
Lemma delete_post_by_author_witness :
  let result := delete_post (alice_posts []) 5 sample_db in
  result.1 = Ok (Redirect blog_index)
  ∧ comments result.2 = ∅
  ∧ ∀ request' now now',
      post_detail request' 5 now now' result.2 = Raise Http404.
Proof.
  destruct (delete_post_by_author sample_db (alice_posts []) 5
              (1%nat, mkUser "alice")
              (mkPost (mkPostFields "first" "a" 0 true (Some 1%nat) None) 1%nat))
    as (Hr & _ & _ & _ & _ & _ & Hgone); [by vm_compute..|].
  split_and!; [done|by vm_compute|done].
Defined.

(** Bob comments the first post and alice opens it. *)
Lemma add_comment_then_detail_witness :
  let first := mkPost (mkPostFields "first" "a" 0 true (Some 1%nat) None) 1%nat in
  let db' :=
    (add_comment sample_CommentForm_clean (bob_posts [("text", "nice")]) 5 20
       sample_db).2 in
  ∃ k shown,
    comments sample_db !! k = None
    ∧ post_detail alice_gets 5 30 30 db' =
        Ok (Render "blog/detail.html"
              (DetailCtx (5%nat, first) (mkForm None None None) shown))
    ∧ (k, mkComment "nice" 20 5 2%nat) ∈ shown
    ∧ length shown = S (comments_on sample_db 5).
Proof.
  apply (add_comment_then_detail sample_CommentForm_clean sample_db
           (bob_posts [("text", "nice")]) 5 20 (2%nat, mkUser "bob")
           (mkPost (mkPostFields "first" "a" 0 true (Some 1%nat) None) 1%nat)
           "nice" eq_refl eq_refl eq_refl alice_gets 30 30
           (detail_page sample_db
              (5%nat,
               mkPost (mkPostFields "first" "a" 0 true (Some 1%nat) None)
                      1%nat))).
  by vm_compute.
Defined.

(** Bob comments the first post and takes the comment back. *)
Lemma add_then_delete_comment_witness :
  let db' :=
    (add_comment sample_CommentForm_clean (bob_posts [("text", "nice")]) 5 20
       sample_db).2 in
  ∃ k,
    comments sample_db !! k = None
    ∧ comments db' !! k = Some (mkComment "nice" 20 5 2%nat)
    ∧ ∀ request' post_id',
        session_user request' = Some 2%nat →
        method request' = "POST" →
        delete_comment request' post_id' k db' =
          (Ok (Redirect (blog_post_detail post_id')), sample_db).
Proof.
  apply (add_then_delete_comment sample_CommentForm_clean sample_db
           (bob_posts [("text", "nice")]) 5 20 (2%nat, mkUser "bob")
           (mkPost (mkPostFields "first" "a" 0 true (Some 1%nat) None) 1%nat)
           "nice"); by vm_compute.
Defined.

(** Bob deletes his comment. *)
Lemma comment_writes_need_author_witness :
  method (bob_posts []) = "POST"
  ∧ ∃ user c,
      request_user sample_db (bob_posts []) = Some user
      ∧ comments sample_db !! 1%nat = Some c
      ∧ comment_author c = pk user.
Proof.
  apply (comment_writes_need_author sample_CommentForm_clean sample_db
           (bob_posts []) 5 1). right.
  intros Heq. apply (f_equal (λ db, comments db !! 1%nat)) in Heq.
  by vm_compute in Heq.
Defined.

(** Bob deletes his comment: the first post has none left. *)
Lemma delete_comment_by_author_witness :
  let db' := (delete_comment (bob_posts []) 5 1 sample_db).2 in
  comments db' = delete 1%nat (comments sample_db)
  ∧ S (comments_on db' 5) = comments_on sample_db 5
  ∧ (∀ k, k ≠ 5%nat → comments_on db' k = comments_on sample_db k)
  ∧ posts db' = posts sample_db
  ∧ users db' = users sample_db
  ∧ categories db' = categories sample_db.
Proof.
  apply (delete_comment_by_author sample_db (bob_posts []) 5 1
           (2%nat, mkUser "bob") (mkComment "hi" 1 5%nat 2%nat));
    by vm_compute.
Defined.

(** Bob takes the name robert and opens the profile under it. *)
Lemma edit_profile_then_profile_witness :
  let request := bob_posts [("username", "robert")] in
  let result := edit_profile sample_ProfileEditForm_clean request sample_db in
  result.1 = Ok (RedirectFromProfile (blog_profile "robert"))
  ∧ users result.2 = <[2%nat := mkUser "robert"]> (users sample_db)
  ∧ ∀ request' now,
      session_user request' = Some 2%nat →
      let listing :=
        get_annotated_posts sample_db now (user_posts_all sample_db 2) true in
      let n := settled_page listing (GET_page request') in
      profile request' "robert" now result.2 =
        Ok (Render "blog/profile.html"
              (ProfileCtx (2%nat, mkUser "robert")
                 (mkPage (page_slice listing n) n (mkPaginator listing 10)))).
Proof.
  apply (edit_profile_then_profile sample_ProfileEditForm_clean sample_db
           (bob_posts [("username", "robert")]) 2%nat (mkUser "bob")
           (mkUser "robert")); [by vm_compute..|].
  intros k' v Hk' Hne.
  by destruct (sample_users k' v Hk') as [[-> ->]|[-> ->]].
Defined.

